(** * Obama speech generator: the retrieval-augmented pipeline of
      [obama_generator_pinecone.py], embedded in Rocq.

    The class [ObamaRAGGeneratorPinecone] talks to three remote services
    (OpenAI embeddings, a Pinecone index, OpenAI chat completions).  The
    embedding keeps the Python control flow: every remote call is an entry
    of a call log, its answer is read from a [World] (the behaviour of the
    services, as a mock would fix it), and a Python exception is the left
    summand of the result.  Console output ([print]) is not part of the
    model. *)

From Stdlib Require Import ZArith List String Ascii Bool Lia.
From Stdlib Require Import SpecFloat DecimalString.
Import ListNotations.
Local Open Scope string_scope.
Local Open Scope Z_scope.

(** ** Python values *)

(** Python's [float] is an IEEE 754 binary64 number. *)
Definition float : Type := spec_float.

Definition prec : Z := 53.
Definition emax : Z := 1024.

(** The double nearest to the quotient [n / d] of two integers, the value
    of a Python literal such as [0.91] ([n = 91], [d = 100]). *)
Definition float_of_ratio (n d : Z) : float :=
  SFdiv prec emax (binary_normalize prec emax n 0 false)
                  (binary_normalize prec emax d 0 false).

(** Instances of Python's [Exception], by class and message.  The classes
    outside [Exception] ([KeyboardInterrupt], [SystemExit]) are not
    modelled. *)
Inductive exn : Type :=
| ValueError (msg : string)
| ImportError (msg : string)
| KeyError (key : string)
| IndexError (msg : string)
| ServiceError (msg : string).

(** ** Strings *)

Definition nl : string := String (ascii_of_nat 10) EmptyString.
Definition dquote : string := String (ascii_of_nat 34) EmptyString.

(** [str(n)] for a non-negative integer. *)
Definition str_of_N (n : N) : string := NilZero.string_of_uint (N.to_uint n).
Definition str_of_nat (n : nat) : string := str_of_N (N.of_nat n).

Definition digit_char (d : N) : ascii := ascii_of_N (48 + d).

(** The integer nearest to [n / d], ties to the even one. *)
Definition round_half_even (n d : N) : N :=
  let q := (n / d)%N in
  let r := (n mod d)%N in
  match (2 * r ?= d)%N with
  | Lt => q
  | Gt => (q + 1)%N
  | Eq => if N.even q then q else (q + 1)%N
  end.

(** The number of hundredths nearest to [m * 2^e]. *)
Definition hundredths (m : positive) (e : Z) : N :=
  match e with
  | Zneg p => round_half_even (100 * Npos m) (2 ^ Npos p)
  | _ => (100 * Npos m * 2 ^ Z.to_N e)%N
  end.

Definition fixed2 (q : N) : string :=
  str_of_N (q / 100) ++ "." ++
  String (digit_char ((q / 10) mod 10)) (String (digit_char (q mod 10)) EmptyString).

Definition sign_str (s : bool) : string := if s then "-" else "".

(** [format(x, '.2f')]: correctly rounded to two decimals, the sign kept
    also on a zero result. *)
Definition format_2f (x : float) : string :=
  match x with
  | S754_zero s => sign_str s ++ "0.00"
  | S754_infinity s => sign_str s ++ "inf"
  | S754_nan => "nan"
  | S754_finite s m e => sign_str s ++ fixed2 (hundredths m e)
  end.

(** ** Results and the call log *)

(** A Python computation either raises or returns. *)
Definition Result (A : Type) : Type := (exn + A)%type.

Definition rbind {A B} (r : Result A) (k : A -> Result B) : Result B :=
  match r with
  | inl e => inl e
  | inr a => k a
  end.

Notation "'let?' x ':=' r 'in' k" := (rbind r (fun x => k))
  (at level 10, x name, r at level 100, k at level 200).

(** [d[key]] on a dict with string keys: the first binding of [key], or
    [KeyError]. *)
Fixpoint subscript {V} (d : list (string * V)) (key : string) : Result V :=
  match d with
  | [] => inl (KeyError key)
  | (k, v) :: d' => if String.eqb k key then inr v else subscript d' key
  end.

(** [d.get(key, default)]. *)
Definition dict_get {V} (d : list (string * V)) (key : string) (default : V) : V :=
  match subscript d key with
  | inr v => v
  | inl _ => default
  end.

(** [xs[0]]. *)
Definition first_item {A} (xs : list A) : Result A :=
  match xs with
  | [] => inl (IndexError "list index out of range")
  | x :: _ => inr x
  end.

(** One match of an index query: its metadata dict and its score. *)
Record Match : Type := mkMatch {
  metadata : list (string * string);
  match_score : float
}.

(** The dict built at lines 85-91 of the source, keys
    [text], [title], [date], [url], [score]. *)
Record SpeechChunk : Type := mkChunk {
  text : string;
  title : string;
  date : string;
  url : string;
  score : float
}.

Record Message : Type := mkMessage {
  role : string;
  content : string
}.

(** One choice of a chat completion; [message.content] may be [None]. *)
Record Choice : Type := mkChoice {
  message_content : option string
}.

Record IndexStats : Type := mkStats {
  total_vector_count : Z
}.

(** The calls that leave the process. *)
Inductive Event : Type :=
| EvPinecone (api_key : string)
| EvIndex (index_name : string)
| EvDescribeIndexStats (index_name : string)
| EvEmbeddingsCreate (model input : string)
| EvIndexQuery (index_name : string) (vector : list float) (top_k : Z)
               (include_metadata : bool)
| EvChatCreate (model : string) (messages : list Message) (temperature : float)
               (max_tokens : Z).

(** What the surroundings answer: the process environment, whether the
    two packages import, and the behaviour of each remote call. *)
Record World : Type := mkWorld {
  environ : list (string * string);
  import_packages : option exn;
  pinecone_client : string -> option exn;
  pinecone_index : string -> option exn;
  describe_index_stats : string -> Result IndexStats;
  embeddings_create : string -> string -> Result (list (list float));
  index_query : string -> list float -> Z -> bool -> Result (list Match);
  chat_completions_create :
    string -> list Message -> float -> Z -> Result (list Choice)
}.

(** A method body: reads the world, returns or raises, and logs its
    remote calls in order. *)
Definition M (A : Type) : Type := World -> Result A * list Event.

Definition ret {A} (a : A) : M A := fun _ => (inr a, []).
Definition raise {A} (e : exn) : M A := fun _ => (inl e, []).

Definition bind {A B} (m : M A) (k : A -> M B) : M B :=
  fun w =>
    match m w with
    | (inl e, t) => (inl e, t)
    | (inr a, t) => let (r, t') := k a w in (r, (t ++ t')%list)
    end.

Notation "x <- m ;; k" := (bind m (fun x => k))
  (at level 61, m at next level, right associativity).
Notation "m ;;; k" := (bind m (fun _ => k))
  (at level 61, right associativity).

(** [try: body / except Exception as e: handler e]. *)
Definition try_except {A} (body : M A) (handler : exn -> M A) : M A :=
  fun w =>
    match body w with
    | (inl e, t) => let (r, t') := handler e w in (r, (t ++ t')%list)
    | (inr a, t) => (inr a, t)
    end.

Definition lift {A} (r : Result A) : M A := fun _ => (r, []).

(** A remote call: logged, then answered by the world. *)
Definition call {A} (ev : Event) (answer : World -> Result A) : M A :=
  fun w => (answer w, [ev]).

Definition unit_result (o : option exn) : Result unit :=
  match o with
  | Some e => inl e
  | None => inr tt
  end.

Definition outcome {A} (m : M A) (w : World) : Result A := fst (m w).
Definition calls {A} (m : M A) (w : World) : list Event := snd (m w).

(** Reading the world without a remote call. *)
Definition ask {A} (answer : World -> Result A) : M A :=
  fun w => (answer w, []).

(** ** The class [ObamaRAGGeneratorPinecone] *)

(** The attributes of an instance that the methods use: the two keys and
    the index that [self.index] is bound to. *)
Record Generator : Type := mkGenerator {
  openai_api_key : string;
  pinecone_api_key : string;
  index_name : string
}.

(** [os.environ.get(name)]. *)
Definition os_environ_get (w : World) (name : string) : option string :=
  match subscript (environ w) name with
  | inr v => Some v
  | inl _ => None
  end.

(** [a or b] on optional strings: [None] and the empty string are false. *)
Definition py_or (a b : option string) : option string :=
  match a with
  | Some s => if String.eqb s "" then b else a
  | None => b
  end.

(** The string behind a true value ([if not x] takes the [None] branch). *)
Definition truthy (a : option string) : option string :=
  match a with
  | Some s => if String.eqb s "" then None else Some s
  | None => None
  end.

(** [__init__] (lines 10-51). *)
Definition init (openai_key pinecone_key : option string) (index : string)
  : M Generator :=
  okey <- ask (fun w => inr (py_or openai_key (os_environ_get w "OPENAI_API_KEY"))) ;;
  pkey <- ask (fun w => inr (py_or pinecone_key (os_environ_get w "PINECONE_API_KEY"))) ;;
  match truthy okey with
  | None =>
      raise (ValueError "OpenAI API key required. Set OPENAI_API_KEY environment variable.")
  | Some ok =>
      match truthy pkey with
      | None =>
          raise (ValueError "Pinecone API key required. Set PINECONE_API_KEY environment variable.")
      | Some pk =>
          try_except
            (ask (fun w => unit_result (import_packages w)) ;;;
             call (EvPinecone pk) (fun w => unit_result (pinecone_client w pk)) ;;;
             call (EvIndex index) (fun w => unit_result (pinecone_index w index)) ;;;
             stats <- call (EvDescribeIndexStats index)
                           (fun w => describe_index_stats w index) ;;
             ret (mkGenerator ok pk index))
            (fun e =>
               match e with
               | ImportError _ => raise e
               | _ => raise e
               end)
      end
  end.

(** [embed_query] (lines 53-59). *)
Definition embed_query (self : Generator) (query : string) : M (list float) :=
  data <- call (EvEmbeddingsCreate "text-embedding-3-small" query)
               (fun w => embeddings_create w "text-embedding-3-small" query) ;;
  lift (first_item data).

(** The dict literal of lines 85-91, its items evaluated in order. *)
Definition chunk_of_match (m : Match) : Result SpeechChunk :=
  let? tx := subscript (metadata m) "text" in
  let? ti := subscript (metadata m) "title" in
  let? da := subscript (metadata m) "date" in
  let? ur := subscript (metadata m) "url" in
  inr (mkChunk tx ti da ur (match_score m)).

(** The loop of lines 83-91: [chunks.append] once per match. *)
Fixpoint append_chunks (chunks : list SpeechChunk) (matches : list Match)
  : Result (list SpeechChunk) :=
  match matches with
  | [] => inr chunks
  | m :: rest =>
      let? c := chunk_of_match m in
      append_chunks (chunks ++ [c])%list rest
  end.

(** [search_relevant_speeches] (lines 61-93). *)
Definition search_relevant_speeches (self : Generator) (topic : string) (n : Z)
  : M (list SpeechChunk) :=
  query_embedding <- embed_query self topic ;;
  matches <- call (EvIndexQuery (index_name self) query_embedding n true)
                  (fun w => index_query w (index_name self) query_embedding n true) ;;
  lift (append_chunks [] matches).

(** The dict of lines 106-110. *)
Definition length_instructions : list (string * string) :=
  [ ("short", "Write 1 substantial paragraph (4-6 sentences).");
    ("medium", "Write 2-3 paragraphs.");
    ("long", "Write 5-7 paragraphs with a clear beginning, middle, and end.") ].

(** [length_instructions.get(length, length_instructions["medium"])]. *)
Definition length_instruction (length : string) : string :=
  dict_get length_instructions length
           (dict_get length_instructions "medium" "").

(** The f-string of lines 112-116. *)
Definition prompt_header (n_chunks : nat) : string :=
  "You are tasked with generating a statement in Barack Obama's authentic speaking style." ++ nl ++
  nl ++
  "Here are " ++ str_of_nat n_chunks ++
  " relevant examples of how Barack Obama speaks (retrieved by semantic similarity):" ++ nl ++
  nl.

(** The f-string of lines 119-123. *)
Definition example_block (i : nat) (chunk : SpeechChunk) : string :=
  nl ++
  "--- Example " ++ str_of_nat i ++ ": " ++ dquote ++ title chunk ++ dquote ++
  " (" ++ date chunk ++ ") [Relevance: " ++ format_2f (score chunk) ++ "] ---" ++ nl ++
  text chunk ++ nl ++
  nl.

(** The f-string of lines 125-142. *)
Definition prompt_closing (topic length : string) : string :=
  nl ++
  "--- End of Examples ---" ++ nl ++
  nl ++
  "Now, generate a statement in Barack Obama's voice about: " ++
    dquote ++ topic ++ dquote ++ nl ++
  nl ++
  "Key characteristics of Obama's speaking style to emulate:" ++ nl ++
  "• Thoughtful and measured tone, acknowledging complexity" ++ nl ++
  "• Personal stories and connections to everyday Americans" ++ nl ++
  "• Balanced perspective - hopeful while acknowledging real challenges" ++ nl ++
  "• Appeals to shared values and common ground" ++ nl ++
  "• Clear, accessible language with occasional rhetorical flourishes" ++ nl ++
  "• Use of " ++ dquote ++ "we" ++ dquote ++ " and " ++ dquote ++ "our" ++ dquote ++
    " to build unity" ++ nl ++
  "• Specific examples and concrete details" ++ nl ++
  "• Inspirational closing that calls people to action" ++ nl ++
  nl ++
  length_instruction length ++ nl ++
  nl ++
  "Statement:".

(** The loop of lines 118-123: [prompt += ...] for [i, chunk] in
    [enumerate(relevant_chunks, 1)]. *)
Fixpoint add_examples (prompt : string) (i : nat) (chunks : list SpeechChunk)
  : string :=
  match chunks with
  | [] => prompt
  | chunk :: rest => add_examples (prompt ++ example_block i chunk) (S i) rest
  end.

(** Lines 106-144 of [create_prompt]: the text built from the retrieved
    chunks. *)
Definition prompt_text (topic : string) (relevant_chunks : list SpeechChunk)
                       (length : string) : string :=
  add_examples (prompt_header (List.length relevant_chunks)) 1 relevant_chunks
  ++ prompt_closing topic length.

(** [create_prompt] (lines 95-144). *)
Definition create_prompt (self : Generator) (topic : string) (n_examples : Z)
                         (length : string) : M string :=
  relevant_chunks <- search_relevant_speeches self topic n_examples ;;
  ret (prompt_text topic relevant_chunks length).

(** [generate] (lines 146-185). *)
Definition generate (self : Generator) (topic length : string)
                    (temperature : float) (model : string) : M (option string) :=
  prompt <- create_prompt self topic 3 length ;;
  try_except
    (let messages := [mkMessage "user" prompt] in
     let max_tokens := if String.eqb length "long" then 1000 else 500 in
     choices <- call (EvChatCreate model messages temperature max_tokens)
                     (fun w => chat_completions_create w model messages
                                                       temperature max_tokens) ;;
     choice <- lift (first_item choices) ;;
     ret (message_content choice))
    (fun e => ret None).

(** ** Sample surroundings *)

Module Sample.

Definition vec : list float := [float_of_ratio 1 10; float_of_ratio (-2) 10].

Definition match1 : Match :=
  mkMatch [("text", "Yes we can."); ("title", "New Hampshire Primary");
           ("date", "2008-01-08"); ("url", "https://example.org/nh")]
          (float_of_ratio 91 100).

Definition match2 : Match :=
  mkMatch [("text", "Hope over fear."); ("title", "Inaugural Address");
           ("date", "2009-01-20"); ("url", "https://example.org/ia")]
          (float_of_ratio 84 100).

Definition chunk1 : SpeechChunk :=
  mkChunk "Yes we can." "New Hampshire Primary" "2008-01-08"
          "https://example.org/nh" (float_of_ratio 91 100).

Definition chunk2 : SpeechChunk :=
  mkChunk "Hope over fear." "Inaugural Address" "2009-01-20"
          "https://example.org/ia" (float_of_ratio 84 100).

Definition self : Generator := mkGenerator "sk-test" "pc-test" "obama-speeches".

(** Every service answers: the index returns [matches] whatever [top_k]
    is, the chat service answers [choices], the statistics report
    [vectors] vectors. *)
Definition up (matches : list Match) (choices : Result (list Choice))
              (vectors : Z) : World :=
  mkWorld [("OPENAI_API_KEY", "sk-test"); ("PINECONE_API_KEY", "pc-test")]
          None
          (fun _ => None)
          (fun _ => None)
          (fun _ => inr (mkStats vectors))
          (fun _ _ => inr [vec])
          (fun _ _ _ _ => inr matches)
          (fun _ _ _ _ => choices).

Definition healthy : World :=
  up [match1; match2] (inr [mkChoice (Some "My fellow Americans.")]) 1200.

(** The chat service answers, with no text. *)
Definition no_text : World := up [match1; match2] (inr [mkChoice None]) 1200.

(** The chat service is unreachable. *)
Definition chat_down : World :=
  up [match1; match2] (inl (ServiceError "connection refused")) 1200.

(** The index holds nothing. *)
Definition empty_index : World := up [] (inr [mkChoice (Some "Hello.")]) 0.

(** The index cannot be reached. *)
Definition index_down : World :=
  mkWorld [("OPENAI_API_KEY", "sk-test"); ("PINECONE_API_KEY", "pc-test")]
          None
          (fun _ => None)
          (fun _ => None)
          (fun _ => inl (ServiceError "index unreachable"))
          (fun _ _ => inr [vec])
          (fun _ _ _ _ => inl (ServiceError "index unreachable"))
          (fun _ _ _ _ => inr [mkChoice (Some "Hello.")]).

(** The embedding service cannot be reached. *)
Definition embedding_down : World :=
  mkWorld [] None (fun _ => None) (fun _ => None)
          (fun _ => inr (mkStats 1200))
          (fun _ _ => inl (ServiceError "embedding unreachable"))
          (fun _ _ _ _ => inr [match1; match2])
          (fun _ _ _ _ => inr [mkChoice (Some "Hello.")]).

End Sample.

(** [0 <= t <= 1] on doubles. *)
Definition in_unit_interval (t : float) : bool :=
  SFleb (float_of_ratio 0 1) t && SFleb t (float_of_ratio 1 1).

(** ** Predicates used in the statements *)

(** [s] occurs in [t] as a contiguous substring. *)
Definition occurs_in (s t : string) : Prop :=
  exists before after, t = before ++ s ++ after.





Definition is_stats_call (ev : Event) : bool :=
  match ev with
  | EvDescribeIndexStats _ => true
  | _ => false
  end.

(** The calls a request makes: embedding, index query, generation. *)
Definition is_request_call (ev : Event) : bool :=
  match ev with
  | EvEmbeddingsCreate _ _ | EvIndexQuery _ _ _ _ | EvChatCreate _ _ _ _ => true
  | _ => false
  end.

(** All four metadata keys that [search_relevant_speeches] reads. *)
Definition has_metadata (m : Match) (c : SpeechChunk) : Prop :=
  subscript (metadata m) "text" = inr (text c) /\
  subscript (metadata m) "title" = inr (title c) /\
  subscript (metadata m) "date" = inr (date c) /\
  subscript (metadata m) "url" = inr (url c) /\
  match_score m = score c.

(** The example blocks of a chunk list, numbered from [i]. *)
Fixpoint example_blocks (i : nat) (chunks : list SpeechChunk) : list string :=
  match chunks with
  | [] => []
  | chunk :: rest => example_block i chunk :: example_blocks (S i) rest
  end.

(** The embedding model of [embed_query]. *)
Definition embedding_model : string := "text-embedding-3-small".

(** The token limit of line 170 for a length category. *)
Definition max_tokens_of (length : string) : Z :=
  if String.eqb length "long" then 1000 else 500.

(** What the [try] block of [generate] returns for an answer of the chat
    service. *)
Definition text_of_answer (answer : Result (list Choice)) : option string :=
  match answer with
  | inr (choice :: _) => message_content choice
  | _ => None
  end.

(** The metadata keys read at lines 86-89. *)
Definition metadata_keys : list string := ["text"; "title"; "date"; "url"].

(** ** Text operations of the interactive loop *)

(** A Python [str] is held as its UTF-8 bytes.  The operations below are
    those of lines 204-247, on that representation. *)

Definition bytes (codes : list nat) : list ascii := map ascii_of_nat codes.

(** The characters [str.strip()] removes, in UTF-8: U+0009-000D,
    U+001C-0020, U+0085, U+00A0, U+1680, U+2000-200A, U+2028, U+2029,
    U+202F, U+205F, U+3000. *)
Definition whitespace : list (list ascii) :=
  map bytes
    [ [9]; [10]; [11]; [12]; [13]; [28]; [29]; [30]; [31]; [32];
      [194; 133]; [194; 160]; [225; 154; 128];
      [226; 128; 128]; [226; 128; 129]; [226; 128; 130]; [226; 128; 131];
      [226; 128; 132]; [226; 128; 133]; [226; 128; 134]; [226; 128; 135];
      [226; 128; 136]; [226; 128; 137]; [226; 128; 138];
      [226; 128; 168]; [226; 128; 169]; [226; 128; 175];
      [226; 129; 159]; [227; 128; 128] ]%nat.

(** The rest of [x] after the prefix [p], when [p] is a prefix of [x]. *)
Fixpoint after_prefix (p x : list ascii) : option (list ascii) :=
  match p, x with
  | [], _ => Some x
  | a :: p', b :: x' => if Ascii.eqb a b then after_prefix p' x' else None
  | _ :: _, [] => None
  end.

(** The rest of [x] after the first of [patterns] that starts it. *)
Fixpoint strip_one (patterns : list (list ascii)) (x : list ascii)
  : option (list ascii) :=
  match patterns with
  | [] => None
  | p :: rest =>
      match after_prefix p x with
      | Some r => Some r
      | None => strip_one rest x
      end
  end.

Fixpoint strip_front_fuel (patterns : list (list ascii)) (fuel : nat)
                          (x : list ascii) : list ascii :=
  match fuel with
  | O => x
  | S fuel' =>
      match strip_one patterns x with
      | Some r => strip_front_fuel patterns fuel' r
      | None => x
      end
  end.

(** [x] without the leading run of [patterns]. *)
Definition strip_front (patterns : list (list ascii)) (x : list ascii)
  : list ascii :=
  strip_front_fuel patterns (List.length x) x.

Definition lstrip_bytes (x : list ascii) : list ascii :=
  strip_front whitespace x.

Definition rstrip_bytes (x : list ascii) : list ascii :=
  rev (strip_front (map (@rev ascii) whitespace) (rev x)).

(** [s.strip()]. *)
Definition strip (s : string) : string :=
  string_of_list_ascii (rstrip_bytes (lstrip_bytes (list_ascii_of_string s))).

Definition lower_char (c : ascii) : ascii :=
  let n := nat_of_ascii c in
  if ((65 <=? n) && (n <=? 90))%nat then ascii_of_nat (n + 32) else c.

(** [s.lower()] on the letters A-Z.  The source only compares the result
    with the words [quit], [short], [medium], [long], [gpt4], [gpt3], [y]
    and the prefix [search ]; no character outside ASCII lowers to a letter
    of these, so the comparisons come out as in Python. *)
Fixpoint lower (s : string) : string :=
  match s with
  | EmptyString => EmptyString
  | String c s' => String (lower_char c) (lower s')
  end.

(** [s[n:]] where the first [n] characters of [s] are ASCII. *)
Fixpoint drop_chars (n : nat) (s : string) : string :=
  match n, s with
  | O, _ => s
  | S n', String _ s' => drop_chars n' s'
  | S _, EmptyString => EmptyString
  end.

(** A byte [10xxxxxx], which continues a character. *)
Definition is_continuation (c : ascii) : bool :=
  let n := nat_of_ascii c in ((128 <=? n) && (n <=? 191))%nat.

(** [s[:n]]: the first [n] characters. *)
Fixpoint take_chars (n : nat) (s : string) : string :=
  match s with
  | EmptyString => EmptyString
  | String c s' =>
      if is_continuation c then String c (take_chars n s')
      else
        match n with
        | O => EmptyString
        | S n' => String c (take_chars n' s')
        end
  end.

(** [s.replace(' ', '_')]. *)
Fixpoint replace_spaces (s : string) : string :=
  match s with
  | EmptyString => EmptyString
  | String c s' =>
      String (if Ascii.eqb c " "%char then "_"%char else c) (replace_spaces s')
  end.

Fixpoint contains_space (s : string) : bool :=
  match s with
  | EmptyString => false
  | String c s' => Ascii.eqb c " "%char || contains_space s'
  end.

(** The number of characters of a string: its bytes that start one. *)
Fixpoint char_count (s : string) : nat :=
  match s with
  | EmptyString => O
  | String c s' => if is_continuation c then char_count s' else S (char_count s')
  end.

(** [c * n] for a one-character string. *)
Fixpoint repeat_str (c : string) (n : nat) : string :=
  match n with
  | O => EmptyString
  | S n' => c ++ repeat_str c n'
  end.

(** ** [interactive_mode] and the script body *)

(** What the loop can raise: [EOFError] from [input()], [OSError] from
    writing the file, and whatever the methods raise. *)
Inductive cli_exn : Type :=
| EOFError
| OSError (msg : string)
| Raised (e : exn).

(** What the loop does to its surroundings, in order. *)
Inductive CliEvent : Type :=
| CliInput (prompt : string)
| CliRemote (ev : Event)
| CliWrite (filename content : string).

Definition topic_prompt : string := nl ++ "Topic (or command): ".
Definition save_prompt : string := nl ++ "💾 Save this statement? (y/n): ".

(** The default [temperature] of [generate], the literal [0.7]. *)
Definition default_temperature : float := float_of_ratio 7 10.

(** Line 247. *)
Definition save_filename (user_input : string) : string :=
  "generated_" ++ take_chars 30 (replace_spaces user_input) ++ ".txt".

(** Lines 249-253. *)
Definition save_content (user_input length model result : string) : string :=
  "Topic: " ++ user_input ++ nl ++
  "Length: " ++ length ++ nl ++
  "Model: " ++ model ++ nl ++
  repeat_str "=" 60 ++ nl ++ nl ++
  result.

Definition after_events {A} (t : list CliEvent) (r : A * list CliEvent)
  : A * list CliEvent :=
  (fst r, (t ++ snd r)%list).

Definition is_length_word (s : string) : bool :=
  String.eqb s "short" || String.eqb s "medium" || String.eqb s "long".

(** The [while True] loop of lines 203-254, from the state [length],
    [model] on the lines [inputs] that [input()] will return;
    [write_file name content] is the error of writing the file, if any. *)
Fixpoint interactive_loop (self : Generator)
                          (write_file : string -> string -> option string)
                          (length model : string) (inputs : list string)
                          (w : World) {struct inputs}
  : (cli_exn + unit) * list CliEvent :=
  match inputs with
  | [] => (inl EOFError, [CliInput topic_prompt])
  | line :: rest =>
      let user_input := strip line in
      after_events [CliInput topic_prompt]
        (if String.eqb user_input "" then
           interactive_loop self write_file length model rest w
         else if String.eqb (lower user_input) "quit" then
           (inr tt, [])
         else if is_length_word (lower user_input) then
           interactive_loop self write_file (lower user_input) model rest w
         else if String.eqb (lower user_input) "gpt4" then
           interactive_loop self write_file length "gpt-4" rest w
         else if String.eqb (lower user_input) "gpt3" then
           interactive_loop self write_file length "gpt-3.5-turbo" rest w
         else if String.prefix "search " (lower user_input) then
           let topic := strip (drop_chars 7 user_input) in
           match search_relevant_speeches self topic 5 w with
           | (inl e, t) => (inl (Raised e), map CliRemote t)
           | (inr _, t) =>
               after_events (map CliRemote t)
                 (interactive_loop self write_file length model rest w)
           end
         else
           match generate self user_input length default_temperature model w with
           | (inl e, t) => (inl (Raised e), map CliRemote t)
           | (inr None, t) =>
               after_events (map CliRemote t)
                 (interactive_loop self write_file length model rest w)
           | (inr (Some result), t) =>
               if String.eqb result "" then
                 after_events (map CliRemote t)
                   (interactive_loop self write_file length model rest w)
               else
                 after_events (map CliRemote t ++ [CliInput save_prompt])%list
                   match rest with
                   | [] => (inl EOFError, [])
                   | answer :: rest' =>
                       if String.eqb (lower (strip answer)) "y" then
                         let filename := save_filename user_input in
                         let text := save_content user_input length model result in
                         after_events [CliWrite filename text]
                           match write_file filename text with
                           | Some msg => (inl (OSError msg), [])
                           | None =>
                               interactive_loop self write_file length model rest' w
                           end
                       else
                         interactive_loop self write_file length model rest' w
                   end
           end)
  end.

(** [interactive_mode] (lines 187-254). *)
Definition interactive_mode (self : Generator)
                            (write_file : string -> string -> option string)
                            (inputs : list string) (w : World)
  : (cli_exn + unit) * list CliEvent :=
  interactive_loop self write_file "medium" "gpt-4" inputs w.

(** The [__main__] block (lines 258-289): the exit status of the
    process and what it did. *)
Definition main (write_file : string -> string -> option string)
                (inputs : list string) (w : World) : Z * list CliEvent :=
  match truthy (os_environ_get w "OPENAI_API_KEY") with
  | None => (1, [])
  | Some _ =>
      match truthy (os_environ_get w "PINECONE_API_KEY") with
      | None => (1, [])
      | Some _ =>
          match init None None "obama-speeches" w with
          | (inl _, t) => (0, map CliRemote t)
          | (inr generator, t) =>
              after_events (map CliRemote t)
                (0, snd (interactive_mode generator write_file inputs w))
          end
      end
  end.

(** ** The web handlers of [app.py] *)

Module App.

(** The fields a handler reads from the JSON body, for a body whose
    [topic], [length] and [model] are strings and whose [temperature] is a
    float; [None] is an absent key. *)
Record Request : Type := mkRequest {
  req_topic : option string;
  req_length : option string;
  req_model : option string;
  req_temperature : option float
}.

(** The JSON object a handler answers with; [ErrorOf e] is
    [{'error': str(e)}]. *)
Inductive Body : Type :=
| ErrorText (msg : string)
| ErrorOf (e : exn)
| Generated (text topic length model : string) (temperature : float)
| Results (chunks : list SpeechChunk).

Record Response : Type := mkResponse {
  status : Z;
  body : Body
}.

Definition get_default {A} (field : option A) (default : A) : A :=
  match field with
  | Some v => v
  | None => default
  end.

(** The module-level [generator] (lines 22-29): the instance, or [None]
    when the construction raised. *)
Definition generator (w : World) : option Generator :=
  match outcome (init None None "obama-speeches") w with
  | inr g => Some g
  | inl _ => None
  end.

Definition not_initialized : Response :=
  mkResponse 500 (ErrorText "Generator not initialized. Check your API keys.").

Definition topic_required : Response :=
  mkResponse 400 (ErrorText "Topic is required").

(** The handler of [/generate] (lines 38-83), below its rate limit. *)
Definition generate (gen : option Generator) (data : Request) (w : World)
  : Response * list Event :=
  match gen with
  | None => (not_initialized, [])
  | Some g =>
      let topic := get_default (req_topic data) "" in
      let length := get_default (req_length data) "medium" in
      let model := get_default (req_model data) "gpt-4" in
      let temperature := get_default (req_temperature data) default_temperature in
      if String.eqb topic "" then (topic_required, [])
      else
        match generate g topic length temperature model w with
        | (inl e, t) => (mkResponse 500 (ErrorOf e), t)
        | (inr (Some result), t) =>
            if String.eqb result "" then
              (mkResponse 500 (ErrorText "Generation failed"), t)
            else
              (mkResponse 200 (Generated result topic length model temperature), t)
        | (inr None, t) => (mkResponse 500 (ErrorText "Generation failed"), t)
        end
  end.

(** The handler of [/search] (lines 87-113), below its rate limit. *)
Definition search (gen : option Generator) (topic_field : option string)
                  (w : World) : Response * list Event :=
  match gen with
  | None => (not_initialized, [])
  | Some g =>
      let topic := get_default topic_field "" in
      if String.eqb topic "" then (topic_required, [])
      else
        match search_relevant_speeches g topic 5 w with
        | (inl e, t) => (mkResponse 500 (ErrorOf e), t)
        | (inr chunks, t) => (mkResponse 200 (Results chunks), t)
        end
  end.

End App.

(** * Properties *)

(** ** Evaluation on the samples *)

Example format_2f_091 : format_2f (float_of_ratio 91 100) = "0.91".
Proof. vm_compute. reflexivity. Qed.

Example format_2f_half_even :
  format_2f (float_of_ratio 1 8) = "0.12" /\ format_2f (float_of_ratio 3 8) = "0.38".
Proof. vm_compute. split; reflexivity. Qed.

Example format_2f_neg_small :
  format_2f (SFopp (float_of_ratio 1 1000)) = "-0.00".
Proof. vm_compute. reflexivity. Qed.

Example search_healthy :
  search_relevant_speeches Sample.self "hope" 3 Sample.healthy
  = (inr [Sample.chunk1; Sample.chunk2],
     [EvEmbeddingsCreate "text-embedding-3-small" "hope";
      EvIndexQuery "obama-speeches" Sample.vec 3 true]).
Proof. vm_compute. reflexivity. Qed.

Example temperature_range :
  in_unit_interval (float_of_ratio 7 10) = true /\
  in_unit_interval (float_of_ratio 3 2) = false /\
  in_unit_interval (float_of_ratio (-1) 10) = false.
Proof. vm_compute. repeat split. Qed.

(** ** How each method runs *)

Lemma embed_query_run self query w :
  embed_query self query w
  = (rbind (embeddings_create w embedding_model query) first_item,
     [EvEmbeddingsCreate embedding_model query]).
Proof.
  unfold embed_query, bind, call, lift, embedding_model.
  destruct (embeddings_create w _ query) as [e | data]; reflexivity.
Qed.

Lemma search_run self topic n w :
  search_relevant_speeches self topic n w
  = match rbind (embeddings_create w embedding_model topic) first_item with
    | inl e => (inl e, [EvEmbeddingsCreate embedding_model topic])
    | inr v =>
        (rbind (index_query w (index_name self) v n true) (append_chunks []),
         [EvEmbeddingsCreate embedding_model topic;
          EvIndexQuery (index_name self) v n true])
    end.
Proof.
  unfold search_relevant_speeches, bind at 1.
  rewrite embed_query_run.
  destruct (rbind _ first_item) as [e | v]; [reflexivity |].
  unfold bind, call, lift.
  destruct (index_query w _ v n true) as [e | matches]; reflexivity.
Qed.

Lemma create_prompt_run self topic n length w :
  create_prompt self topic n length w
  = (rbind (outcome (search_relevant_speeches self topic n) w)
           (fun chunks => inr (prompt_text topic chunks length)),
     calls (search_relevant_speeches self topic n) w).
Proof.
  unfold create_prompt, bind, ret, outcome, calls.
  destruct (search_relevant_speeches self topic n w) as [[e | chunks] t]; simpl;
    [reflexivity | now rewrite app_nil_r].
Qed.

Lemma generate_run self topic length temperature model w :
  generate self topic length temperature model w
  = match create_prompt self topic 3 length w with
    | (inl e, t) => (inl e, t)
    | (inr prompt, t) =>
        let messages := [mkMessage "user" prompt] in
        (inr (text_of_answer
                (chat_completions_create w model messages temperature
                                         (max_tokens_of length))),
         (t ++ [EvChatCreate model messages temperature (max_tokens_of length)])%list)
    end.
Proof.
  unfold generate, bind at 1.
  destruct (create_prompt self topic 3 length w) as [[e | prompt] t]; [reflexivity |].
  unfold try_except, bind, call, lift, ret, max_tokens_of. cbv zeta.
  destruct (chat_completions_create w model _ temperature _) as [e | [| c cs]];
    simpl; reflexivity.
Qed.

Lemma search_first_call self topic n w :
  exists rest,
    calls (search_relevant_speeches self topic n) w
    = EvEmbeddingsCreate embedding_model topic :: rest.
Proof.
  unfold calls. rewrite search_run.
  destruct (rbind _ first_item); simpl; eauto.
Qed.

Lemma search_calls_no_chat self topic n w model msgs t mt :
  ~ In (EvChatCreate model msgs t mt) (calls (search_relevant_speeches self topic n) w).
Proof.
  unfold calls. rewrite search_run.
  destruct (rbind _ first_item); simpl; intuition discriminate.
Qed.

Lemma generate_calls self topic length temperature model w :
  calls (generate self topic length temperature model) w
  = (calls (search_relevant_speeches self topic 3) w ++
     match outcome (search_relevant_speeches self topic 3) w with
     | inl _ => []
     | inr chunks =>
         [EvChatCreate model [mkMessage "user" (prompt_text topic chunks length)]
                       temperature (max_tokens_of length)]
     end)%list.
Proof.
  unfold calls at 1. rewrite generate_run, create_prompt_run.
  destruct (outcome (search_relevant_speeches self topic 3) w) as [e | chunks];
    simpl; [now rewrite app_nil_r | reflexivity].
Qed.

(** ** Validation in [generate] *)

(** C1, as the claim has it, fails: [generate] on the empty topic, and on
    the temperature 1.5, validates nothing.  It calls the embedding
    service, the index and the chat service, hands the temperature 1.5 to
    the chat service as it is, and returns the generated text. *)
Lemma generate_validation_counterexample :
  generate Sample.self "" "medium" (float_of_ratio 7 10) "gpt-4" Sample.healthy
  = (inr (Some "My fellow Americans."),
     [EvEmbeddingsCreate "text-embedding-3-small" "";
      EvIndexQuery "obama-speeches" Sample.vec 3 true;
      EvChatCreate "gpt-4"
        [mkMessage "user" (prompt_text "" [Sample.chunk1; Sample.chunk2] "medium")]
        (float_of_ratio 7 10) 500])
  /\ in_unit_interval (float_of_ratio 3 2) = false
  /\ generate Sample.self "hope" "medium" (float_of_ratio 3 2) "gpt-4" Sample.healthy
  = (inr (Some "My fellow Americans."),
     [EvEmbeddingsCreate "text-embedding-3-small" "hope";
      EvIndexQuery "obama-speeches" Sample.vec 3 true;
      EvChatCreate "gpt-4"
        [mkMessage "user" (prompt_text "hope" [Sample.chunk1; Sample.chunk2] "medium")]
        (float_of_ratio 3 2) 500]).
Proof. vm_compute. repeat split. Qed.

(** C1, amended: [generate] validates neither the topic nor the
    temperature.  For every topic (the empty one too) its first action is
    the embedding call on that topic, and every chat call it makes carries
    the temperature it was given, unchanged: out-of-range temperatures are
    neither rejected nor clamped. *)
Theorem generate_validates_nothing :
  forall self topic length temperature model w,
    (exists rest,
        calls (generate self topic length temperature model) w
        = EvEmbeddingsCreate embedding_model topic :: rest)
    /\ (forall model' messages t max_tokens,
           In (EvChatCreate model' messages t max_tokens)
              (calls (generate self topic length temperature model) w) ->
           t = temperature)
    /\ (forall chunks,
           outcome (search_relevant_speeches self topic 3) w = inr chunks ->
           In (EvChatCreate model
                 [mkMessage "user" (prompt_text topic chunks length)]
                 temperature (max_tokens_of length))
              (calls (generate self topic length temperature model) w)).
Proof.
  intros self topic length temperature model w.
  rewrite generate_calls.
  destruct (search_first_call self topic 3 w) as [rest Hrest].
  split; [| split].
  - rewrite Hrest. simpl. eauto.
  - intros model' messages t max_tokens Hin.
    apply in_app_or in Hin. destruct Hin as [Hin | Hin].
    + now apply search_calls_no_chat in Hin.
    + destruct (outcome _ w); simpl in Hin; [contradiction |].
      destruct Hin as [Heq | []]. now inversion Heq.
  - intros chunks Hok. rewrite Hok. apply in_or_app. right. now left.
Qed.

Lemma generate_validates_nothing_witness :
  in_unit_interval (float_of_ratio 3 2) = false /\
  In (EvChatCreate "gpt-4"
        [mkMessage "user" (prompt_text "" [Sample.chunk1; Sample.chunk2] "short")]
        (float_of_ratio 3 2) 500)
     (calls (generate Sample.self "" "short" (float_of_ratio 3 2) "gpt-4")
            Sample.healthy).
Proof.
  split; [vm_compute; reflexivity |].
  apply (proj2 (proj2 (generate_validates_nothing
                         Sample.self "" "short" (float_of_ratio 3 2) "gpt-4"
                         Sample.healthy))).
  vm_compute. reflexivity.
Defined.

(** ** Generation without text *)

(** C2, as the claim has it, fails: when the chat service answers without
    text, [generate] returns [None], the very value it returns when the
    chat service cannot be reached. *)
Lemma generate_empty_result_counterexample :
  chat_completions_create Sample.no_text "gpt-4"
    [mkMessage "user" (prompt_text "hope" [Sample.chunk1; Sample.chunk2] "medium")]
    (float_of_ratio 7 10) 500 = inr [mkChoice None]
  /\ chat_completions_create Sample.chat_down "gpt-4"
    [mkMessage "user" (prompt_text "hope" [Sample.chunk1; Sample.chunk2] "medium")]
    (float_of_ratio 7 10) 500 = inl (ServiceError "connection refused")
  /\ generate Sample.self "hope" "medium" (float_of_ratio 7 10) "gpt-4" Sample.no_text
     = generate Sample.self "hope" "medium" (float_of_ratio 7 10) "gpt-4" Sample.chat_down
  /\ outcome (generate Sample.self "hope" "medium" (float_of_ratio 7 10) "gpt-4")
             Sample.no_text = inr None.
Proof. vm_compute. repeat split. Qed.

(** C2, amended: once the prompt is built, [generate] does not raise.  On
    an answer of the chat service it returns the content of the first
    choice as it is: [None] when the content is absent, the empty string
    when it is empty; with no choice at all, and when the call raises, it
    returns [None].  The return value therefore does not tell an answer
    without content from an unreachable service. *)
Theorem generate_returns_answer_content :
  forall self topic length temperature model w prompt,
    outcome (create_prompt self topic 3 length) w = inr prompt ->
    let answer := chat_completions_create w model [mkMessage "user" prompt]
                                          temperature (max_tokens_of length) in
    (forall choice rest,
        answer = inr (choice :: rest) ->
        outcome (generate self topic length temperature model) w
        = inr (message_content choice))
    /\ (answer = inr [] ->
        outcome (generate self topic length temperature model) w = inr None)
    /\ (forall e,
        answer = inl e ->
        outcome (generate self topic length temperature model) w = inr None).
Proof.
  intros self topic length temperature model w prompt Hprompt answer.
  unfold outcome in *. rewrite generate_run.
  destruct (create_prompt self topic 3 length w) as [[e | p] t]; simpl in Hprompt;
    [discriminate |].
  injection Hprompt as ->. cbv zeta. fold answer. simpl.
  repeat split; intros; subst; match goal with H : answer = _ |- _ => rewrite H end;
    reflexivity.
Qed.

Lemma generate_returns_answer_content_witness :
  outcome (generate Sample.self "hope" "medium" (float_of_ratio 7 10) "gpt-4")
          Sample.no_text = inr None
  /\ outcome (generate Sample.self "hope" "medium" (float_of_ratio 7 10) "gpt-4")
             Sample.chat_down = inr None
  /\ outcome (generate Sample.self "hope" "medium" (float_of_ratio 7 10) "gpt-4")
             (Sample.up [] (inr [mkChoice (Some "")]) 0) = inr (Some "").
Proof.
  split; [| split].
  - refine (proj1 (generate_returns_answer_content
                     Sample.self "hope" "medium" (float_of_ratio 7 10) "gpt-4"
                     Sample.no_text _ _) (mkChoice None) [] _);
      vm_compute; reflexivity.
  - refine (proj2 (proj2 (generate_returns_answer_content
                     Sample.self "hope" "medium" (float_of_ratio 7 10) "gpt-4"
                     Sample.chat_down _ _)) (ServiceError "connection refused") _);
      vm_compute; reflexivity.
  - refine (proj1 (generate_returns_answer_content
                     Sample.self "hope" "medium" (float_of_ratio 7 10) "gpt-4"
                     (Sample.up [] (inr [mkChoice (Some "")]) 0) _ _)
                  (mkChoice (Some "")) [] _);
      vm_compute; reflexivity.
Defined.

(** ** The prompt as a function of the retrieved chunks *)

(** C3, as the claim has it, fails on [create_prompt]: the method queries
    the embedding service and the index itself, so the same arguments give
    different prompts in different surroundings. *)
Lemma create_prompt_pure_counterexample :
  calls (create_prompt Sample.self "hope" 3 "medium") Sample.healthy
  = [EvEmbeddingsCreate "text-embedding-3-small" "hope";
     EvIndexQuery "obama-speeches" Sample.vec 3 true]
  /\ outcome (create_prompt Sample.self "hope" 3 "medium") Sample.healthy
     <> outcome (create_prompt Sample.self "hope" 3 "medium") Sample.empty_index.
Proof.
  split.
  - vm_compute. reflexivity.
  - vm_compute. discriminate.
Qed.

(** C3, amended: the remote calls of [create_prompt] are those of the
    retrieval, and the text it returns depends on the surroundings through
    the retrieved chunks only.  Two calls with the same topic and length
    whose retrievals return the same chunks return byte-identical prompts,
    whatever the instance, the example count and the surroundings. *)
Theorem create_prompt_determined_by_chunks :
  forall self1 self2 topic n1 n2 length w1 w2 chunks,
    outcome (search_relevant_speeches self1 topic n1) w1 = inr chunks ->
    outcome (search_relevant_speeches self2 topic n2) w2 = inr chunks ->
    outcome (create_prompt self1 topic n1 length) w1
    = outcome (create_prompt self2 topic n2 length) w2
    /\ outcome (create_prompt self1 topic n1 length) w1
       = inr (prompt_text topic chunks length)
    /\ calls (create_prompt self1 topic n1 length) w1
       = calls (search_relevant_speeches self1 topic n1) w1.
Proof.
  intros self1 self2 topic n1 n2 length w1 w2 chunks H1 H2.
  unfold outcome at 1 2 3, calls at 1.
  rewrite !create_prompt_run, H1, H2. simpl. auto.
Qed.

Lemma create_prompt_determined_by_chunks_witness :
  outcome (create_prompt Sample.self "hope" 3 "long") Sample.healthy
  = outcome (create_prompt (mkGenerator "a" "b" "other") "hope" 5 "long")
            Sample.no_text.
Proof.
  refine (proj1 (create_prompt_determined_by_chunks
                   Sample.self (mkGenerator "a" "b" "other") "hope" 3 5 "long"
                   Sample.healthy Sample.no_text
                   [Sample.chunk1; Sample.chunk2] _ _));
    vm_compute; reflexivity.
Defined.

(** ** The length instruction *)

Lemma append_assoc (a b c : string) : (a ++ b) ++ c = a ++ (b ++ c).
Proof. induction a as [| ch a IH]; simpl; [reflexivity | now rewrite IH]. Qed.

Lemma append_empty_r (a : string) : a ++ "" = a.
Proof. induction a as [| ch a IH]; simpl; [reflexivity | now rewrite IH]. Qed.

Lemma occurs_in_app_r s prefix t : occurs_in s t -> occurs_in s (prefix ++ t).
Proof.
  intros [a [b ->]]. exists (prefix ++ a), b. now rewrite append_assoc.
Qed.

Lemma occurs_in_app_l s suffix t : occurs_in s t -> occurs_in s (t ++ suffix).
Proof.
  intros [a [b ->]]. exists a, (b ++ suffix). now rewrite !append_assoc.
Qed.

Lemma occurs_in_refl s : occurs_in s s.
Proof. exists "", "". simpl. now rewrite append_empty_r. Qed.

Lemma instruction_in_prompt topic chunks length :
  occurs_in (length_instruction length) (prompt_text topic chunks length).
Proof.
  unfold prompt_text. apply occurs_in_app_r.
  unfold prompt_closing.
  repeat (first [ apply occurs_in_app_l; apply occurs_in_refl
                | apply occurs_in_app_r ]).
Qed.

Lemma occurs_in_trans s t u : occurs_in s t -> occurs_in t u -> occurs_in s u.
Proof.
  intros Hst [a [b ->]]. now apply occurs_in_app_r, occurs_in_app_l.
Qed.

Lemma length_instruction_other length :
  length <> "short" -> length <> "medium" -> length <> "long" ->
  length_instruction length = "Write 2-3 paragraphs.".
Proof.
  intros Hs Hm Hl.
  unfold length_instruction, dict_get, length_instructions. cbn [subscript].
  rewrite (String.eqb_sym "short"), (String.eqb_sym "medium"), (String.eqb_sym "long").
  apply String.eqb_neq in Hs, Hm, Hl. now rewrite Hs, Hm, Hl.
Qed.

(** C4: the prompt built for the length [short], [medium] or [long]
    contains the instruction of that length verbatim, and the prompt built
    for any other length contains the [medium] instruction. *)
Theorem prompt_contains_length_instruction :
  (forall topic chunks,
      occurs_in "1 substantial paragraph (4-6 sentences)"
                (prompt_text topic chunks "short"))
  /\ (forall topic chunks,
         occurs_in "2-3 paragraphs" (prompt_text topic chunks "medium"))
  /\ (forall topic chunks,
         occurs_in "5-7 paragraphs with a clear beginning, middle, and end"
                   (prompt_text topic chunks "long"))
  /\ (forall topic chunks length,
         length <> "short" -> length <> "medium" -> length <> "long" ->
         occurs_in "2-3 paragraphs" (prompt_text topic chunks length)).
Proof.
  repeat split; intros.
  - eapply occurs_in_trans; [| apply instruction_in_prompt].
    exists "Write ", ".". reflexivity.
  - eapply occurs_in_trans; [| apply instruction_in_prompt].
    exists "Write ", ".". reflexivity.
  - eapply occurs_in_trans; [| apply instruction_in_prompt].
    exists "Write ", ".". reflexivity.
  - eapply occurs_in_trans; [| apply instruction_in_prompt].
    rewrite length_instruction_other by assumption.
    exists "Write ", ".". reflexivity.
Qed.

Lemma prompt_contains_length_instruction_witness :
  occurs_in "2-3 paragraphs"
            (prompt_text "hope" [Sample.chunk1; Sample.chunk2] "tiny").
Proof.
  apply (proj2 (proj2 (proj2 prompt_contains_length_instruction)));
    intro H; discriminate H.
Defined.

(** ** Retrieval *)

Lemma chunk_of_match_inr m c :
  chunk_of_match m = inr c <-> has_metadata m c.
Proof.
  unfold chunk_of_match, has_metadata, rbind.
  destruct (subscript (metadata m) "text") as [e1 | tx];
    [split; [discriminate | intros [H _]; discriminate] |].
  destruct (subscript (metadata m) "title") as [e2 | ti];
    [split; [discriminate | intros [_ [H _]]; discriminate] |].
  destruct (subscript (metadata m) "date") as [e3 | da];
    [split; [discriminate | intros [_ [_ [H _]]]; discriminate] |].
  destruct (subscript (metadata m) "url") as [e4 | ur];
    [split; [discriminate | intros [_ [_ [_ [H _]]]]; discriminate] |].
  split.
  - intros H. injection H as <-. simpl. auto.
  - intros [H1 [H2 [H3 [H4 H5]]]].
    injection H1 as ->. injection H2 as ->. injection H3 as ->. injection H4 as ->.
    rewrite H5. now destruct c.
Qed.

Lemma append_chunks_inr matches :
  forall acc result,
    append_chunks acc matches = inr result <->
    exists chunks, result = (acc ++ chunks)%list /\ Forall2 has_metadata matches chunks.
Proof.
  induction matches as [| m rest IH]; intros acc result; simpl.
  - split.
    + intros H. injection H as <-. exists []. now rewrite app_nil_r.
    + intros [chunks [-> H]]. inversion H. now rewrite app_nil_r.
  - unfold rbind. destruct (chunk_of_match m) as [e | c] eqn:Hm.
    + split; [discriminate |].
      intros [chunks [_ H]]. inversion H as [| m' c' ms cs Hc Hrest]; subst.
      apply chunk_of_match_inr in Hc. congruence.
    + rewrite IH. split.
      * intros [chunks [-> H]]. exists (c :: chunks). split.
        -- now rewrite <- app_assoc.
        -- constructor; [now apply chunk_of_match_inr | assumption].
      * intros [chunks [-> H]]. inversion H as [| m' c' ms cs Hc Hrest]; subst.
        apply chunk_of_match_inr in Hc. rewrite Hm in Hc. injection Hc as <-.
        exists cs. split; [now rewrite <- app_assoc | assumption].
Qed.

(** C5, as the claim has it, fails: [search_relevant_speeches] does not
    validate the topic (on the empty topic it queries both services and
    returns chunks), and it does not cut the result to [n] (it returns one
    chunk per match the index returned, here two for [n = 1]). *)
Lemma search_validation_counterexample :
  search_relevant_speeches Sample.self "" 3 Sample.healthy
  = (inr [Sample.chunk1; Sample.chunk2],
     [EvEmbeddingsCreate "text-embedding-3-small" "";
      EvIndexQuery "obama-speeches" Sample.vec 3 true])
  /\ search_relevant_speeches Sample.self "hope" 1 Sample.healthy
     = (inr [Sample.chunk1; Sample.chunk2],
        [EvEmbeddingsCreate "text-embedding-3-small" "hope";
         EvIndexQuery "obama-speeches" Sample.vec 1 true])
  /\ (1 < Z.of_nat (List.length [Sample.chunk1; Sample.chunk2])).
Proof. vm_compute. repeat split. Qed.

(** C5, amended: [search_relevant_speeches] validates nothing.  For every
    topic and every [n], when the embedding succeeds and the index answers
    the query for [top_k = n] with a list of matches, the method makes
    these two calls only and, when every match has the four metadata keys,
    returns one chunk per match, in the order of the matches, each chunk
    holding the text, title, date and url of its match's metadata and its
    score.  So it returns at most [n] chunks whenever the index returned
    at most [n] matches. *)
Theorem search_maps_matches_in_order :
  forall self topic n w vector matches,
    outcome (embed_query self topic) w = inr vector ->
    index_query w (index_name self) vector n true = inr matches ->
    calls (search_relevant_speeches self topic n) w
    = [EvEmbeddingsCreate embedding_model topic;
       EvIndexQuery (index_name self) vector n true]
    /\ (forall chunks,
           outcome (search_relevant_speeches self topic n) w = inr chunks <->
           Forall2 has_metadata matches chunks)
    /\ (forall chunks,
           outcome (search_relevant_speeches self topic n) w = inr chunks ->
           List.length chunks = List.length matches
           /\ (Z.of_nat (List.length matches) <= n ->
               Z.of_nat (List.length chunks) <= n)).
Proof.
  intros self topic n w vector matches Hembed Hquery.
  unfold outcome in Hembed. rewrite embed_query_run in Hembed. simpl in Hembed.
  assert (Hrun : search_relevant_speeches self topic n w
                 = (append_chunks [] matches,
                    [EvEmbeddingsCreate embedding_model topic;
                     EvIndexQuery (index_name self) vector n true])).
  { rewrite search_run, Hembed, Hquery. reflexivity. }
  unfold outcome, calls. rewrite Hrun. simpl.
  assert (Hiff : forall chunks,
             append_chunks [] matches = inr chunks <->
             Forall2 has_metadata matches chunks).
  { intros chunks. rewrite append_chunks_inr. simpl. split.
    - intros [cs [-> H]]. exact H.
    - intros H. now exists chunks. }
  repeat split.
  - now apply Hiff.
  - now apply Hiff.
  - apply Hiff in H. symmetry. eapply Forall2_length; eassumption.
  - apply Hiff in H. apply Forall2_length in H. now rewrite <- H.
Qed.

Lemma search_maps_matches_in_order_witness :
  outcome (search_relevant_speeches Sample.self "hope" 3) Sample.healthy
  = inr [Sample.chunk1; Sample.chunk2]
  /\ Z.of_nat (List.length [Sample.chunk1; Sample.chunk2]) <= 3.
Proof.
  assert (Hout : outcome (search_relevant_speeches Sample.self "hope" 3) Sample.healthy
                 = inr [Sample.chunk1; Sample.chunk2]).
  { apply (proj1 (proj2 (search_maps_matches_in_order
                           Sample.self "hope" 3 Sample.healthy Sample.vec
                           [Sample.match1; Sample.match2]
                           eq_refl eq_refl))).
    repeat constructor. }
  split; [exact Hout |].
  apply (proj2 (proj2 (search_maps_matches_in_order
                         Sample.self "hope" 3 Sample.healthy Sample.vec
                         [Sample.match1; Sample.match2]
                         eq_refl eq_refl)) _ Hout).
  simpl. lia.
Defined.

(** ** Construction *)

Lemma init_run openai_key pinecone_key index w :
  init openai_key pinecone_key index w
  = match truthy (py_or openai_key (os_environ_get w "OPENAI_API_KEY")) with
    | None =>
        (inl (ValueError "OpenAI API key required. Set OPENAI_API_KEY environment variable."),
         [])
    | Some ok =>
        match truthy (py_or pinecone_key (os_environ_get w "PINECONE_API_KEY")) with
        | None =>
            (inl (ValueError "Pinecone API key required. Set PINECONE_API_KEY environment variable."),
             [])
        | Some pk =>
            match import_packages w with
            | Some e => (inl e, [])
            | None =>
                match pinecone_client w pk with
                | Some e => (inl e, [EvPinecone pk])
                | None =>
                    match pinecone_index w index with
                    | Some e => (inl e, [EvPinecone pk; EvIndex index])
                    | None =>
                        (match describe_index_stats w index with
                         | inl e => inl e
                         | inr _ => inr (mkGenerator ok pk index)
                         end,
                         [EvPinecone pk; EvIndex index; EvDescribeIndexStats index])
                    end
                end
            end
        end
    end.
Proof.
  unfold init, bind at 1 2, ask at 1 2. simpl.
  destruct (truthy (py_or openai_key _)) as [ok |]; [| reflexivity].
  destruct (truthy (py_or pinecone_key _)) as [pk |]; [| reflexivity].
  unfold try_except, bind, ask, call, ret, raise, unit_result.
  destruct (import_packages w) as [[] |]; try reflexivity.
  destruct (pinecone_client w pk) as [[] |]; try reflexivity.
  destruct (pinecone_index w index) as [[] |]; try reflexivity.
  destruct (describe_index_stats w index) as [[] | stats]; reflexivity.
Qed.

(** C6, as the claim has it, fails: on an index whose statistics report
    zero vectors the construction succeeds. *)
Lemma init_empty_index_counterexample :
  describe_index_stats Sample.empty_index "obama-speeches" = inr (mkStats 0)
  /\ init None None "obama-speeches" Sample.empty_index
     = (inr (mkGenerator "sk-test" "pc-test" "obama-speeches"),
        [EvPinecone "pc-test"; EvIndex "obama-speeches";
         EvDescribeIndexStats "obama-speeches"]).
Proof. vm_compute. split; reflexivity. Qed.

(** C6, amended: [__init__] fetches the index statistics at most once,
    exactly once whenever it returns an instance, and makes no embedding,
    query or chat call.  When the statistics call raises, no instance is
    returned: the construction raises, and it raises that very exception
    when the call was reached.  The vector count is not examined: with both
    keys present, the packages imported and the client and index objects
    built, the construction returns the instance whatever the statistics
    say. *)
Theorem init_checks_index_once :
  forall openai_key pinecone_key index w,
    (List.length (filter is_stats_call (calls (init openai_key pinecone_key index) w))
     <= 1)%nat
    /\ filter is_request_call (calls (init openai_key pinecone_key index) w) = []
    /\ (forall self,
           outcome (init openai_key pinecone_key index) w = inr self ->
           index_name self = index
           /\ (exists stats, describe_index_stats w index = inr stats)
           /\ filter is_stats_call (calls (init openai_key pinecone_key index) w)
              = [EvDescribeIndexStats index])
    /\ (forall e,
           describe_index_stats w index = inl e ->
           (exists e', outcome (init openai_key pinecone_key index) w = inl e')
           /\ (In (EvDescribeIndexStats index)
                  (calls (init openai_key pinecone_key index) w) ->
               outcome (init openai_key pinecone_key index) w = inl e))
    /\ (forall ok pk stats,
           truthy (py_or openai_key (os_environ_get w "OPENAI_API_KEY")) = Some ok ->
           truthy (py_or pinecone_key (os_environ_get w "PINECONE_API_KEY")) = Some pk ->
           import_packages w = None ->
           pinecone_client w pk = None ->
           pinecone_index w index = None ->
           describe_index_stats w index = inr stats ->
           outcome (init openai_key pinecone_key index) w
           = inr (mkGenerator ok pk index)).
Proof.
  intros openai_key pinecone_key index w.
  unfold outcome, calls. rewrite init_run.
  destruct (truthy (py_or openai_key _)) as [ok |] eqn:Hok;
    [destruct (truthy (py_or pinecone_key _)) as [pk |] eqn:Hpk;
      [destruct (import_packages w) as [ei |] eqn:Himport;
        [| destruct (pinecone_client w pk) as [ec |] eqn:Hclient;
          [| destruct (pinecone_index w index) as [ex |] eqn:Hindex;
            [| destruct (describe_index_stats w index) as [es | st] eqn:Hstats]]] |] |];
    simpl; (split; [lia |]); (split; [reflexivity |]);
    (split; [intros self Hself; inversion Hself; subst; simpl; eauto |]);
    (split; [intros e He; try discriminate He;
             (split; [eexists; reflexivity |]); intros Hin;
             repeat (destruct Hin as [Hin | Hin]; try discriminate Hin);
             try contradiction; congruence |]);
    intros ok' pk' stats' H1 H2 H3 H4 H5 H6; congruence.
Qed.

Lemma init_checks_index_once_witness :
  outcome (init None None "obama-speeches") Sample.index_down
  = inl (ServiceError "index unreachable")
  /\ outcome (init None None "obama-speeches") Sample.empty_index
     = inr (mkGenerator "sk-test" "pc-test" "obama-speeches").
Proof.
  split.
  - apply (proj2 (proj1 (proj2 (proj2 (proj2
             (init_checks_index_once None None "obama-speeches" Sample.index_down))))
           (ServiceError "index unreachable") eq_refl)).
    vm_compute. auto.
  - apply (proj2 (proj2 (proj2 (proj2
             (init_checks_index_once None None "obama-speeches" Sample.empty_index))))
           "sk-test" "pc-test" (mkStats 0)); reflexivity.
Defined.

(** ** The example blocks *)

Lemma add_examples_blocks chunks :
  forall prompt i,
    add_examples prompt i chunks
    = prompt ++ String.concat "" (example_blocks i chunks).
Proof.
  induction chunks as [| chunk rest IH]; intros prompt i; simpl.
  - now rewrite append_empty_r.
  - rewrite IH, append_assoc. f_equal.
    destruct rest; simpl; [now rewrite append_empty_r | reflexivity].
Qed.

Lemma prompt_text_blocks topic chunks length :
  prompt_text topic chunks length
  = prompt_header (List.length chunks)
    ++ String.concat "" (example_blocks 1 chunks)
    ++ prompt_closing topic length.
Proof.
  unfold prompt_text. now rewrite add_examples_blocks, append_assoc.
Qed.



(** ** Two decimals *)











(** The scenario of the specification: scores 0.91 and 0.84, length
    [short]. *)
Example prompt_scenario :
  example_block 1 Sample.chunk1
  = nl ++ "--- Example 1: " ++ dquote ++ "New Hampshire Primary" ++ dquote
       ++ " (2008-01-08) [Relevance: 0.91] ---" ++ nl
       ++ "Yes we can." ++ nl ++ nl
  /\ example_block 2 Sample.chunk2
     = nl ++ "--- Example 2: " ++ dquote ++ "Inaugural Address" ++ dquote
          ++ " (2009-01-20) [Relevance: 0.84] ---" ++ nl
          ++ "Hope over fear." ++ nl ++ nl.
Proof. vm_compute. split; reflexivity. Qed.

(** ** No chunks *)



(** ** The token limit *)

(** C9: every chat call of [generate] carries a token limit fixed by the
    length alone, 1000 for [long] and 500 for any other length; and
    [generate] makes such a call whenever the prompt was built. *)
Theorem generate_max_tokens :
  forall self topic length temperature model w,
    (forall model' messages t max_tokens,
        In (EvChatCreate model' messages t max_tokens)
           (calls (generate self topic length temperature model) w) ->
        (length = "long" -> max_tokens = 1000)
        /\ (length <> "long" -> max_tokens = 500))
    /\ (forall prompt,
           outcome (create_prompt self topic 3 length) w = inr prompt ->
           exists max_tokens,
             In (EvChatCreate model [mkMessage "user" prompt] temperature max_tokens)
                (calls (generate self topic length temperature model) w)).
Proof.
  intros self topic length temperature model w. split.
  - intros model' messages t max_tokens Hin.
    rewrite generate_calls in Hin.
    apply in_app_or in Hin. destruct Hin as [Hin | Hin].
    + now apply search_calls_no_chat in Hin.
    + destruct (outcome _ w); simpl in Hin; [contradiction |].
      destruct Hin as [Heq | []]. injection Heq as _ _ _ <-.
      unfold max_tokens_of. split.
      * intros ->. reflexivity.
      * intros Hne. apply String.eqb_neq in Hne. now rewrite Hne.
  - intros prompt Hprompt. exists (max_tokens_of length).
    unfold outcome in Hprompt. rewrite create_prompt_run in Hprompt.
    simpl in Hprompt. rewrite generate_calls.
    destruct (outcome (search_relevant_speeches self topic 3) w) as [e | chunks];
      simpl in Hprompt; [discriminate |].
    injection Hprompt as <-. apply in_or_app. right. now left.
Qed.

Lemma generate_max_tokens_witness :
  (exists max_tokens,
      In (EvChatCreate "gpt-4"
            [mkMessage "user" (prompt_text "hope" [Sample.chunk1; Sample.chunk2] "long")]
            (float_of_ratio 7 10) max_tokens)
         (calls (generate Sample.self "hope" "long" (float_of_ratio 7 10) "gpt-4")
                Sample.healthy))
  /\ (forall max_tokens,
         In (EvChatCreate "gpt-4"
               [mkMessage "user" (prompt_text "hope" [Sample.chunk1; Sample.chunk2] "long")]
               (float_of_ratio 7 10) max_tokens)
            (calls (generate Sample.self "hope" "long" (float_of_ratio 7 10) "gpt-4")
                   Sample.healthy) ->
         max_tokens = 1000).
Proof.
  pose proof (generate_max_tokens Sample.self "hope" "long" (float_of_ratio 7 10)
                                  "gpt-4" Sample.healthy) as [Hlimit Hcall].
  split.
  - apply Hcall. vm_compute. reflexivity.
  - intros max_tokens Hin. now apply (Hlimit _ _ _ _ Hin).
Defined.

(** ** Where failures surface *)

(** C10: a failure of the embedding or of the index query, which happens
    while the prompt is built and before the [try] block, leaves
    [generate] as that exception, with no chat call made; a failure of the
    chat call is caught, and [generate] returns [None]. *)
Theorem generate_failure_stages :
  forall self topic length temperature model w,
    (forall e,
        outcome (create_prompt self topic 3 length) w = inl e ->
        outcome (generate self topic length temperature model) w = inl e
        /\ calls (generate self topic length temperature model) w
           = calls (search_relevant_speeches self topic 3) w)
    /\ (forall e,
           embeddings_create w embedding_model topic = inl e ->
           outcome (generate self topic length temperature model) w = inl e)
    /\ (forall vector e,
           outcome (embed_query self topic) w = inr vector ->
           index_query w (index_name self) vector 3 true = inl e ->
           outcome (generate self topic length temperature model) w = inl e)
    /\ (forall prompt e,
           outcome (create_prompt self topic 3 length) w = inr prompt ->
           chat_completions_create w model [mkMessage "user" prompt] temperature
                                   (max_tokens_of length) = inl e ->
           outcome (generate self topic length temperature model) w = inr None).
Proof.
  intros self topic length temperature model w.
  assert (Hraise : forall e,
             outcome (create_prompt self topic 3 length) w = inl e ->
             outcome (generate self topic length temperature model) w = inl e
             /\ calls (generate self topic length temperature model) w
                = calls (search_relevant_speeches self topic 3) w).
  { intros e He. unfold outcome, calls in *. rewrite generate_run.
    rewrite create_prompt_run in *.
    destruct (rbind _ _) as [e' | p]; simpl in *; [| discriminate].
    injection He as ->. auto. }
  split; [exact Hraise |]. split; [| split].
  - intros e He. apply Hraise.
    unfold outcome. rewrite create_prompt_run. unfold outcome.
    rewrite search_run, He. reflexivity.
  - intros vector e Hvec Hquery. apply Hraise.
    unfold outcome in *. rewrite embed_query_run in Hvec. simpl in Hvec.
    rewrite create_prompt_run. unfold outcome.
    rewrite search_run, Hvec, Hquery. reflexivity.
  - intros prompt e Hprompt Hchat.
    unfold outcome in *. rewrite generate_run.
    destruct (create_prompt self topic 3 length w) as [[e' | p] t];
      simpl in Hprompt; [discriminate |].
    injection Hprompt as ->. cbv zeta. rewrite Hchat. reflexivity.
Qed.

Lemma generate_failure_stages_witness :
  outcome (generate Sample.self "hope" "medium" (float_of_ratio 7 10) "gpt-4")
          Sample.embedding_down = inl (ServiceError "embedding unreachable")
  /\ outcome (generate Sample.self "hope" "medium" (float_of_ratio 7 10) "gpt-4")
             Sample.index_down = inl (ServiceError "index unreachable")
  /\ outcome (generate Sample.self "hope" "medium" (float_of_ratio 7 10) "gpt-4")
             Sample.chat_down = inr None.
Proof.
  split; [| split].
  - apply (proj1 (proj2 (generate_failure_stages
                           Sample.self "hope" "medium" (float_of_ratio 7 10) "gpt-4"
                           Sample.embedding_down))).
    reflexivity.
  - apply (proj1 (proj2 (proj2 (generate_failure_stages
                           Sample.self "hope" "medium" (float_of_ratio 7 10) "gpt-4"
                           Sample.index_down))) Sample.vec);
      vm_compute; reflexivity.
  - refine (proj2 (proj2 (proj2 (generate_failure_stages
                           Sample.self "hope" "medium" (float_of_ratio 7 10) "gpt-4"
                           Sample.chat_down))) _
                  (ServiceError "connection refused") _ _);
      vm_compute; reflexivity.
Defined.

(** * Further properties of the code *)

(** ** Construction: keys and call order *)

(** X1: when neither the argument nor the environment gives a non-empty
    OpenAI key, [__init__] raises the [ValueError] for that key without a
    remote call, whatever the Pinecone key is; with an OpenAI key but no
    Pinecone key, it raises the [ValueError] for the Pinecone key, again
    without a remote call. *)
Theorem init_requires_keys :
  forall openai_key pinecone_key index w,
    (truthy openai_key = None ->
     truthy (os_environ_get w "OPENAI_API_KEY") = None ->
     init openai_key pinecone_key index w
     = (inl (ValueError "OpenAI API key required. Set OPENAI_API_KEY environment variable."),
        []))
    /\ (forall ok,
           truthy (py_or openai_key (os_environ_get w "OPENAI_API_KEY")) = Some ok ->
           truthy pinecone_key = None ->
           truthy (os_environ_get w "PINECONE_API_KEY") = None ->
           init openai_key pinecone_key index w
           = (inl (ValueError "Pinecone API key required. Set PINECONE_API_KEY environment variable."),
              [])).
Proof.
  intros openai_key pinecone_key index w.
  assert (Hor : forall a b, truthy a = None -> truthy b = None ->
                            truthy (py_or a b) = None).
  { intros [a |] b Ha Hb; simpl in *; [| exact Hb].
    destruct (String.eqb a "") eqn:Hempty; [| discriminate].
    exact Hb. }
  split.
  - intros Harg Henv. rewrite init_run, (Hor _ _ Harg Henv). reflexivity.
  - intros ok Hok Harg Henv. rewrite init_run, Hok, (Hor _ _ Harg Henv).
    reflexivity.
Qed.

Lemma init_requires_keys_witness :
  init (Some "") None "obama-speeches" Sample.embedding_down
  = (inl (ValueError "OpenAI API key required. Set OPENAI_API_KEY environment variable."),
     [])
  /\ init (Some "sk-1") None "obama-speeches" Sample.embedding_down
     = (inl (ValueError "Pinecone API key required. Set PINECONE_API_KEY environment variable."),
        []).
Proof.
  split.
  - apply (proj1 (init_requires_keys (Some "") None "obama-speeches"
                                     Sample.embedding_down)); reflexivity.
  - apply (proj2 (init_requires_keys (Some "sk-1") None "obama-speeches"
                                     Sample.embedding_down) "sk-1"); reflexivity.
Defined.

Lemma truthy_some a k : truthy a = Some k -> a = Some k /\ k <> "".
Proof.
  destruct a as [s |]; simpl; [| discriminate].
  destruct (String.eqb s "") eqn:Hs; [discriminate |].
  intros H. injection H as <-. split; [reflexivity |].
  now apply String.eqb_neq.
Qed.

Lemma py_or_truthy a b k :
  truthy (py_or a b) = Some k ->
  (a = Some k /\ k <> "") \/ (truthy a = None /\ b = Some k /\ k <> "").
Proof.
  destruct a as [s |]; simpl.
  - destruct (String.eqb s "") eqn:Hs.
    + intros H. right. apply truthy_some in H. tauto.
    + intros H. left. simpl in H. rewrite Hs in H. injection H as <-.
      split; [reflexivity |]. now apply String.eqb_neq.
  - intros H. right. apply truthy_some in H. tauto.
Qed.

(** X2: an instance that [__init__] returns is bound to the index asked
    for and holds two non-empty keys; each key is the argument when the
    argument is a non-empty string, else the value of the environment
    variable. *)
Theorem init_instance_keys :
  forall openai_key pinecone_key index w self,
    outcome (init openai_key pinecone_key index) w = inr self ->
    index_name self = index
    /\ openai_api_key self <> "" /\ pinecone_api_key self <> ""
    /\ (openai_key = Some (openai_api_key self)
        \/ (truthy openai_key = None
            /\ os_environ_get w "OPENAI_API_KEY" = Some (openai_api_key self)))
    /\ (pinecone_key = Some (pinecone_api_key self)
        \/ (truthy pinecone_key = None
            /\ os_environ_get w "PINECONE_API_KEY" = Some (pinecone_api_key self))).
Proof.
  intros openai_key pinecone_key index w self.
  unfold outcome. rewrite init_run.
  destruct (truthy (py_or openai_key _)) as [ok |] eqn:Hok; [| discriminate].
  destruct (truthy (py_or pinecone_key _)) as [pk |] eqn:Hpk; [| discriminate].
  destruct (import_packages w); [discriminate |].
  destruct (pinecone_client w pk); [discriminate |].
  destruct (pinecone_index w index); [discriminate |].
  destruct (describe_index_stats w index); [discriminate |].
  simpl. intros H. injection H as <-. simpl.
  apply py_or_truthy in Hok, Hpk.
  repeat split; try tauto.
Qed.

Lemma init_instance_keys_witness :
  index_name (mkGenerator "sk-arg" "pc-test" "speeches-2") = "speeches-2"
  /\ Some "sk-arg" = Some (openai_api_key (mkGenerator "sk-arg" "pc-test" "speeches-2")).
Proof.
  pose proof (init_instance_keys (Some "sk-arg") (Some "") "speeches-2"
                Sample.healthy (mkGenerator "sk-arg" "pc-test" "speeches-2") eq_refl)
    as [Hindex _].
  split; [exact Hindex | reflexivity].
Defined.

(** X3: the remote calls of [__init__] are an initial part of: build the
    Pinecone client, open the index, fetch the statistics.  It stops at
    the first step that raises, and when the packages do not import it
    makes none and raises the import error. *)
Theorem init_calls_in_order :
  forall openai_key pinecone_key index w,
    (exists pk n,
        calls (init openai_key pinecone_key index) w
        = firstn n [EvPinecone pk; EvIndex index; EvDescribeIndexStats index])
    /\ (forall ok pk e,
           truthy (py_or openai_key (os_environ_get w "OPENAI_API_KEY")) = Some ok ->
           truthy (py_or pinecone_key (os_environ_get w "PINECONE_API_KEY")) = Some pk ->
           (import_packages w = Some e ->
            init openai_key pinecone_key index w = (inl e, []))
           /\ (import_packages w = None -> pinecone_client w pk = Some e ->
               init openai_key pinecone_key index w = (inl e, [EvPinecone pk]))
           /\ (import_packages w = None -> pinecone_client w pk = None ->
               pinecone_index w index = Some e ->
               init openai_key pinecone_key index w
               = (inl e, [EvPinecone pk; EvIndex index]))).
Proof.
  intros openai_key pinecone_key index w. unfold calls. rewrite init_run. split.
  - destruct (truthy (py_or openai_key _)) as [ok |]; [| now exists "", 0%nat].
    destruct (truthy (py_or pinecone_key _)) as [pk |]; [| now exists "", 0%nat].
    exists pk.
    destruct (import_packages w); [now exists 0%nat |].
    destruct (pinecone_client w pk); [now exists 1%nat |].
    destruct (pinecone_index w index); [now exists 2%nat |].
    now exists 3%nat.
  - intros ok pk e Hok Hpk. rewrite Hok, Hpk.
    repeat split; intros; repeat match goal with H : _ = _ |- _ => rewrite H end;
      reflexivity.
Qed.

Lemma init_calls_in_order_witness :
  init None None "obama-speeches"
       (mkWorld [("OPENAI_API_KEY", "sk"); ("PINECONE_API_KEY", "pc")]
                None (fun _ => None) (fun _ => Some (ServiceError "no such index"))
                (fun _ => inr (mkStats 1)) (fun _ _ => inr [])
                (fun _ _ _ _ => inr []) (fun _ _ _ _ => inr []))
  = (inl (ServiceError "no such index"),
     [EvPinecone "pc"; EvIndex "obama-speeches"]).
Proof.
  set (w := mkWorld _ _ _ _ _ _ _ _).
  apply (proj2 (proj2 (proj2 (init_calls_in_order None None "obama-speeches" w)
                         "sk" "pc" (ServiceError "no such index") eq_refl eq_refl)));
    reflexivity.
Defined.

(** ** Retrieval failures *)

(** X4: when the embedding call raises, or answers with no embedding,
    [generate] raises (that exception, or [IndexError]) after this one
    call: the index and the chat service are not called.  When it answers
    with several embeddings the index is queried with the first one. *)
Theorem embedding_failure_stops_generate :
  forall self topic length temperature model w,
    (forall e,
        embeddings_create w embedding_model topic = inl e ->
        generate self topic length temperature model w
        = (inl e, [EvEmbeddingsCreate embedding_model topic]))
    /\ (embeddings_create w embedding_model topic = inr [] ->
        generate self topic length temperature model w
        = (inl (IndexError "list index out of range"),
           [EvEmbeddingsCreate embedding_model topic]))
    /\ (forall vector others,
           embeddings_create w embedding_model topic = inr (vector :: others) ->
           exists rest,
             calls (generate self topic length temperature model) w
             = EvEmbeddingsCreate embedding_model topic
               :: EvIndexQuery (index_name self) vector 3 true :: rest).
Proof.
  intros self topic length temperature model w.
  split; [| split].
  - intros e He. rewrite generate_run, create_prompt_run. unfold outcome, calls.
    rewrite search_run, He. reflexivity.
  - intros He. rewrite generate_run, create_prompt_run. unfold outcome, calls.
    rewrite search_run, He. reflexivity.
  - intros vector others He. rewrite generate_calls. unfold calls.
    rewrite search_run, He. simpl. eauto.
Qed.

Lemma embedding_failure_stops_generate_witness :
  generate Sample.self "hope" "long" (float_of_ratio 7 10) "gpt-4"
           Sample.embedding_down
  = (inl (ServiceError "embedding unreachable"),
     [EvEmbeddingsCreate embedding_model "hope"]).
Proof.
  apply (proj1 (embedding_failure_stops_generate
                  Sample.self "hope" "long" (float_of_ratio 7 10) "gpt-4"
                  Sample.embedding_down)).
  reflexivity.
Defined.

Lemma subscript_inl {V} (d : list (string * V)) key e :
  subscript d key = inl e -> e = KeyError key.
Proof.
  induction d as [| [k v] d IH]; simpl.
  - intros H. now injection H as <-.
  - destruct (String.eqb k key); [discriminate | exact IH].
Qed.

Lemma chunk_of_match_inl m e :
  chunk_of_match m = inl e -> exists key, In key metadata_keys /\ e = KeyError key.
Proof.
  unfold chunk_of_match, rbind, metadata_keys.
  destruct (subscript (metadata m) "text") as [e1 | tx] eqn:H1.
  { intros H. injection H as <-. exists "text". split; [simpl; auto |].
    eapply subscript_inl; eassumption. }
  destruct (subscript (metadata m) "title") as [e2 | ti] eqn:H2.
  { intros H. injection H as <-. exists "title". split; [simpl; auto |].
    eapply subscript_inl; eassumption. }
  destruct (subscript (metadata m) "date") as [e3 | da] eqn:H3.
  { intros H. injection H as <-. exists "date". split; [simpl; auto |].
    eapply subscript_inl; eassumption. }
  destruct (subscript (metadata m) "url") as [e4 | ur] eqn:H4.
  { intros H. injection H as <-. exists "url". split; [simpl; auto |].
    eapply subscript_inl; eassumption. }
  discriminate.
Qed.

Lemma chunk_of_match_missing m key :
  In key metadata_keys ->
  (forall v, subscript (metadata m) key <> inr v) ->
  exists e, chunk_of_match m = inl e.
Proof.
  intros Hkey Hmiss.
  destruct (chunk_of_match m) as [e | c] eqn:Hm; [eauto |].
  apply chunk_of_match_inr in Hm. destruct Hm as [H1 [H2 [H3 [H4 _]]]].
  unfold metadata_keys in Hkey. simpl in Hkey.
  destruct Hkey as [<- | [<- | [<- | [<- | []]]]];
    exfalso; eapply Hmiss; eassumption.
Qed.

Lemma append_chunks_missing matches :
  forall acc m,
    In m matches ->
    (exists e, chunk_of_match m = inl e) ->
    exists key, In key metadata_keys /\ append_chunks acc matches = inl (KeyError key).
Proof.
  induction matches as [| m0 rest IH]; intros acc m Hin Hbad; [contradiction |].
  simpl. unfold rbind.
  destruct (chunk_of_match m0) as [e0 | c0] eqn:H0.
  - apply chunk_of_match_inl in H0. destruct H0 as [key [Hkey ->]].
    exists key. split; [exact Hkey | reflexivity].
  - destruct Hin as [-> | Hin].
    + destruct Hbad as [e He]. congruence.
    + eapply IH; eassumption.
Qed.

(** X5: when one of the matches of the index lacks one of the metadata
    keys [text], [title], [date], [url], [search_relevant_speeches]
    returns no chunk at all: it raises [KeyError] for one of these keys.
    Both remote calls have been made by then, and [generate] raises the
    same error without calling the chat service. *)
Theorem match_without_metadata_key :
  forall self topic n w vector matches m key,
    outcome (embed_query self topic) w = inr vector ->
    index_query w (index_name self) vector n true = inr matches ->
    In m matches ->
    In key metadata_keys ->
    (forall v, subscript (metadata m) key <> inr v) ->
    exists key',
      In key' metadata_keys
      /\ search_relevant_speeches self topic n w
         = (inl (KeyError key'),
            [EvEmbeddingsCreate embedding_model topic;
             EvIndexQuery (index_name self) vector n true])
      /\ (n = 3 ->
          forall length temperature model,
            generate self topic length temperature model w
            = (inl (KeyError key'),
               [EvEmbeddingsCreate embedding_model topic;
                EvIndexQuery (index_name self) vector 3 true])).
Proof.
  intros self topic n w vector matches m key Hembed Hquery Hin Hkey Hmiss.
  unfold outcome in Hembed. rewrite embed_query_run in Hembed. simpl in Hembed.
  destruct (append_chunks_missing matches [] m Hin
              (chunk_of_match_missing m key Hkey Hmiss)) as [key' [Hkey' Happ]].
  exists key'. split; [exact Hkey' |].
  assert (Hrun : search_relevant_speeches self topic n w
                 = (inl (KeyError key'),
                    [EvEmbeddingsCreate embedding_model topic;
                     EvIndexQuery (index_name self) vector n true])).
  { rewrite search_run, Hembed, Hquery. simpl. now rewrite Happ. }
  split; [exact Hrun |].
  intros -> length temperature model.
  rewrite generate_run, create_prompt_run. unfold outcome, calls.
  rewrite Hrun. reflexivity.
Qed.

Lemma match_without_metadata_key_witness :
  exists key',
    In key' metadata_keys
    /\ search_relevant_speeches Sample.self "hope" 5
         (Sample.up [Sample.match1; mkMatch [("text", "No title.")] (float_of_ratio 1 2)]
                    (inr []) 7)
       = (inl (KeyError key'),
          [EvEmbeddingsCreate embedding_model "hope";
           EvIndexQuery "obama-speeches" Sample.vec 5 true]).
Proof.
  destruct (match_without_metadata_key
              Sample.self "hope" 5
              (Sample.up [Sample.match1; mkMatch [("text", "No title.")] (float_of_ratio 1 2)]
                         (inr []) 7)
              Sample.vec
              [Sample.match1; mkMatch [("text", "No title.")] (float_of_ratio 1 2)]
              (mkMatch [("text", "No title.")] (float_of_ratio 1 2)) "date"
              eq_refl eq_refl)
    as [key' [Hkey [Hrun _]]].
  - simpl. auto.
  - simpl. auto.
  - intros v. discriminate.
  - exists key'. split; assumption.
Defined.

(** ** The calls of one generation *)

Lemma search_calls_shape self topic n w :
  calls (search_relevant_speeches self topic n) w
  = [EvEmbeddingsCreate embedding_model topic]
  \/ (exists vector,
         calls (search_relevant_speeches self topic n) w
         = [EvEmbeddingsCreate embedding_model topic;
            EvIndexQuery (index_name self) vector n true]).
Proof.
  unfold calls. rewrite search_run.
  destruct (rbind (embeddings_create w embedding_model topic) first_item)
    as [e | vector]; simpl; [now left |].
  right. now exists vector.
Qed.

Lemma generate_calls_shape self topic length temperature model w :
  calls (generate self topic length temperature model) w
  = [EvEmbeddingsCreate embedding_model topic]
  \/ (exists vector,
         calls (generate self topic length temperature model) w
         = [EvEmbeddingsCreate embedding_model topic;
            EvIndexQuery (index_name self) vector 3 true])
  \/ (exists vector chunks,
         outcome (search_relevant_speeches self topic 3) w = inr chunks
         /\ calls (generate self topic length temperature model) w
            = [EvEmbeddingsCreate embedding_model topic;
               EvIndexQuery (index_name self) vector 3 true;
               EvChatCreate model
                 [mkMessage "user" (prompt_text topic chunks length)]
                 temperature (max_tokens_of length)]).
Proof.
  rewrite generate_calls. unfold outcome, calls. rewrite search_run.
  destruct (rbind (embeddings_create w embedding_model topic) first_item)
    as [e | vector]; simpl; [now left |].
  destruct (rbind (index_query w (index_name self) vector 3 true) (append_chunks []))
    as [e | chunks]; simpl.
  - right. left. now exists vector.
  - right. right. now exists vector, chunks.
Qed.

Lemma search_event_cases self topic n w ev :
  In ev (calls (search_relevant_speeches self topic n) w) ->
  ev = EvEmbeddingsCreate embedding_model topic
  \/ (exists vector, ev = EvIndexQuery (index_name self) vector n true).
Proof.
  destruct (search_calls_shape self topic n w) as [H | [vector H]];
    rewrite H; simpl; intros Hin.
  - destruct Hin as [<- | []]. now left.
  - destruct Hin as [<- | [<- | []]]; [now left | right; now exists vector].
Qed.

Lemma generate_event_cases self topic length temperature model w ev :
  In ev (calls (generate self topic length temperature model) w) ->
  ev = EvEmbeddingsCreate embedding_model topic
  \/ (exists vector, ev = EvIndexQuery (index_name self) vector 3 true)
  \/ (exists chunks,
         ev = EvChatCreate model [mkMessage "user" (prompt_text topic chunks length)]
                           temperature (max_tokens_of length)).
Proof.
  destruct (generate_calls_shape self topic length temperature model w)
    as [H | [[vector H] | [vector [chunks [_ H]]]]]; rewrite H; simpl; intros Hin.
  - destruct Hin as [<- | []]. now left.
  - destruct Hin as [<- | [<- | []]]; [now left | right; left; now exists vector].
  - destruct Hin as [<- | [<- | [<- | []]]];
      [now left | right; left; now exists vector | right; right; now exists chunks].
Qed.

(** X6: [generate] makes at most three remote calls, in this order: one
    embedding call on the topic, one index query for three matches with
    metadata on the instance's index, one chat call.  The chat call comes
    last and holds a single message of role [user] whose content is the
    prompt built from the retrieved chunks. *)
Theorem generate_call_sequence :
  forall self topic length temperature model w,
    let embed := EvEmbeddingsCreate embedding_model topic in
    let query vector := EvIndexQuery (index_name self) vector 3 true in
    calls (generate self topic length temperature model) w = [embed]
    \/ (exists vector,
           calls (generate self topic length temperature model) w
           = [embed; query vector])
    \/ (exists vector chunks,
           outcome (search_relevant_speeches self topic 3) w = inr chunks
           /\ calls (generate self topic length temperature model) w
              = [embed; query vector;
                 EvChatCreate model
                   [mkMessage "user" (prompt_text topic chunks length)]
                   temperature (max_tokens_of length)]).
Proof.
  intros self topic length temperature model w embed query.
  apply generate_calls_shape.
Qed.

(** ** The frame of the prompt *)

(** X7: whatever the chunks, the prompt starts with the persona sentence,
    quotes the topic verbatim (no character of it is escaped or removed)
    after [about: ], and ends with the length instruction, an empty line
    and [Statement:]. *)
Theorem prompt_frame :
  forall topic chunks length,
    (exists rest,
        prompt_text topic chunks length
        = "You are tasked with generating a statement in Barack Obama's authentic speaking style."
          ++ rest)
    /\ occurs_in ("Now, generate a statement in Barack Obama's voice about: "
                  ++ dquote ++ topic ++ dquote ++ nl)
                 (prompt_text topic chunks length)
    /\ (exists before,
           prompt_text topic chunks length
           = before ++ length_instruction length ++ nl ++ nl ++ "Statement:").
Proof.
  intros topic chunks length. rewrite prompt_text_blocks.
  split; [| split].
  - unfold prompt_header. rewrite append_assoc. eauto.
  - do 2 apply occurs_in_app_r. unfold prompt_closing.
    exists (nl ++ "--- End of Examples ---" ++ nl ++ nl). eexists.
    rewrite !append_assoc. reflexivity.
  - unfold prompt_closing.
    eexists. rewrite <- !append_assoc. reflexivity.
Qed.

(** ** The printed score *)



(** ** The web handlers *)

Lemma web_generate_run g data w :
  let topic := App.get_default (App.req_topic data) "" in
  let length := App.get_default (App.req_length data) "medium" in
  let model := App.get_default (App.req_model data) "gpt-4" in
  let temperature := App.get_default (App.req_temperature data) default_temperature in
  topic <> "" ->
  snd (App.generate (Some g) data w)
  = calls (generate g topic length temperature model) w
  /\ fst (App.generate (Some g) data w)
     = match outcome (generate g topic length temperature model) w with
       | inl e => App.mkResponse 500 (App.ErrorOf e)
       | inr (Some result) =>
           if String.eqb result "" then
             App.mkResponse 500 (App.ErrorText "Generation failed")
           else
             App.mkResponse 200 (App.Generated result topic length model temperature)
       | inr None => App.mkResponse 500 (App.ErrorText "Generation failed")
       end.
Proof.
  intros topic length model temperature Htopic.
  unfold App.generate, outcome, calls. fold topic length model temperature.
  apply String.eqb_neq in Htopic. rewrite Htopic.
  destruct (generate g topic length temperature model w) as [[e | [result |]] t];
    simpl; [auto | | auto].
  destruct (String.eqb result ""); auto.
Qed.



(** X10: when the statistics call fails at start-up (or the construction
    raises for another reason) the module keeps no generator, and from
    then on both handlers answer every request with status 500 and make
    no remote call, whatever the services do by then. *)
Theorem web_startup_failure_blocks_requests :
  forall w,
    (forall e, outcome (init None None "obama-speeches") w = inl e ->
               App.generator w = None)
    /\ (forall ok pk e,
           truthy (os_environ_get w "OPENAI_API_KEY") = Some ok ->
           truthy (os_environ_get w "PINECONE_API_KEY") = Some pk ->
           import_packages w = None ->
           pinecone_client w pk = None ->
           pinecone_index w "obama-speeches" = None ->
           describe_index_stats w "obama-speeches" = inl e ->
           App.generator w = None)
    /\ (App.generator w = None ->
        forall data topic_field w',
          App.generate (App.generator w) data w' = (App.not_initialized, [])
          /\ App.search (App.generator w) topic_field w' = (App.not_initialized, [])).
Proof.
  intros w. split; [| split].
  - intros e He. unfold App.generator. now rewrite He.
  - intros ok pk e Hok Hpk Himport Hclient Hindex Hstats.
    unfold App.generator, outcome. rewrite init_run. simpl py_or.
    rewrite Hok, Hpk, Himport, Hclient, Hindex, Hstats. reflexivity.
  - intros Hnone data topic_field w'. rewrite Hnone. split; reflexivity.
Qed.

Lemma web_startup_failure_blocks_requests_witness :
  App.generate (App.generator Sample.index_down)
               (App.mkRequest (Some "hope") None None None) Sample.healthy
  = (App.not_initialized, []).
Proof.
  pose proof (web_startup_failure_blocks_requests Sample.index_down)
    as [_ [Hstats Hblock]].
  assert (Hnone : App.generator Sample.index_down = None).
  { apply (Hstats "sk-test" "pc-test" (ServiceError "index unreachable"));
      reflexivity. }
  exact (proj1 (Hblock Hnone (App.mkRequest (Some "hope") None None None)
                       None Sample.healthy)).
Defined.

(** X11: for a request with a topic, [/generate] answers 200 exactly
    when [generate] returned a non-empty text, and then echoes the text
    with the topic, length, model and temperature used (the defaults
    [medium], [gpt-4], 0.7 for absent fields); in every other case it
    answers 500.  Its remote calls are those of [generate]. *)
Theorem web_generate_status :
  forall g data w,
    let topic := App.get_default (App.req_topic data) "" in
    let length := App.get_default (App.req_length data) "medium" in
    let model := App.get_default (App.req_model data) "gpt-4" in
    let temperature := App.get_default (App.req_temperature data) default_temperature in
    topic <> "" ->
    snd (App.generate (Some g) data w)
    = calls (generate g topic length temperature model) w
    /\ (forall result,
           result <> "" ->
           outcome (generate g topic length temperature model) w = inr (Some result) ->
           fst (App.generate (Some g) data w)
           = App.mkResponse 200 (App.Generated result topic length model temperature))
    /\ (App.status (fst (App.generate (Some g) data w)) = 200 ->
        exists result,
          result <> ""
          /\ outcome (generate g topic length temperature model) w = inr (Some result))
    /\ (App.status (fst (App.generate (Some g) data w)) = 200
        \/ App.status (fst (App.generate (Some g) data w)) = 500).
Proof.
  intros g data w topic length model temperature Htopic.
  destruct (web_generate_run g data w Htopic) as [Hcalls Hanswer].
  fold topic length model temperature in Hcalls, Hanswer.
  split; [exact Hcalls |]. rewrite Hanswer.
  destruct (outcome (generate g topic length temperature model) w)
    as [e | [result |]].
  - repeat split; try discriminate; auto.
  - destruct (String.eqb result "") eqn:Hres.
    + apply String.eqb_eq in Hres.
      repeat split; try discriminate; auto.
      intros r Hr H. inversion H. congruence.
    + apply String.eqb_neq in Hres.
      repeat split; auto.
      * intros r _ H. inversion H. reflexivity.
      * intros _. now exists result.
  - repeat split; try discriminate; auto.
Qed.

Lemma web_generate_status_witness :
  fst (App.generate (Some Sample.self) (App.mkRequest (Some "hope") None None None)
                    Sample.healthy)
  = App.mkResponse 200
      (App.Generated "My fellow Americans." "hope" "medium" "gpt-4" default_temperature).
Proof.
  refine (proj1 (proj2 (web_generate_status
                          Sample.self (App.mkRequest (Some "hope") None None None)
                          Sample.healthy _))
                "My fellow Americans." _ _).
  - discriminate.
  - discriminate.
  - vm_compute. reflexivity.
Defined.

(** X12: [/generate] tells a retrieval failure from a generation failure.
    When the embedding or the index query raises, the answer is status 500
    with the text of that exception; when the prompt was built and the
    chat call raises, returns no choice, or returns no or empty content,
    the answer is status 500 with the fixed text [Generation failed]. *)
Theorem web_generate_failures :
  forall g data w,
    let topic := App.get_default (App.req_topic data) "" in
    let length := App.get_default (App.req_length data) "medium" in
    let model := App.get_default (App.req_model data) "gpt-4" in
    let temperature := App.get_default (App.req_temperature data) default_temperature in
    topic <> "" ->
    (forall e,
        outcome (create_prompt g topic 3 length) w = inl e ->
        fst (App.generate (Some g) data w) = App.mkResponse 500 (App.ErrorOf e))
    /\ (forall prompt,
           outcome (create_prompt g topic 3 length) w = inr prompt ->
           let answer := chat_completions_create w model [mkMessage "user" prompt]
                                                 temperature (max_tokens_of length) in
           text_of_answer answer = None \/ text_of_answer answer = Some "" ->
           fst (App.generate (Some g) data w)
           = App.mkResponse 500 (App.ErrorText "Generation failed")).
Proof.
  intros g data w topic length model temperature Htopic.
  destruct (web_generate_run g data w Htopic) as [_ Hanswer].
  fold topic length model temperature in Hanswer. rewrite Hanswer.
  unfold outcome. rewrite generate_run. split.
  - intros e He.
    destruct (create_prompt g topic 3 length w) as [[e' | p] t]; simpl in *;
      congruence.
  - intros prompt Hprompt. cbv zeta. intros Htext.
    destruct (create_prompt g topic 3 length w) as [[e' | p] t]; simpl in *;
      [discriminate |].
    injection Hprompt as ->.
    destruct Htext as [-> | ->]; reflexivity.
Qed.

Lemma web_generate_failures_witness :
  fst (App.generate (Some Sample.self) (App.mkRequest (Some "hope") None None None)
                    Sample.index_down)
  = App.mkResponse 500 (App.ErrorOf (ServiceError "index unreachable"))
  /\ fst (App.generate (Some Sample.self) (App.mkRequest (Some "hope") None None None)
                       Sample.chat_down)
     = App.mkResponse 500 (App.ErrorText "Generation failed").
Proof.
  split.
  - refine (proj1 (web_generate_failures
                     Sample.self (App.mkRequest (Some "hope") None None None)
                     Sample.index_down _) _ _).
    + discriminate.
    + vm_compute. reflexivity.
  - refine (proj2 (web_generate_failures
                     Sample.self (App.mkRequest (Some "hope") None None None)
                     Sample.chat_down _) _ _ _).
    + discriminate.
    + vm_compute. reflexivity.
    + left. vm_compute. reflexivity.
Defined.

(** X13: [/search] never calls the chat service: it makes at most the
    embedding call on the topic and one index query, which asks for five
    matches.  When it answers 200 its results are the chunks of the
    retrieval, one per match in index order. *)
Theorem web_search_calls :
  forall gen topic_field w,
    (forall ev,
        In ev (snd (App.search gen topic_field w)) ->
        exists g,
          gen = Some g
          /\ (ev = EvEmbeddingsCreate embedding_model (App.get_default topic_field "")
              \/ exists vector, ev = EvIndexQuery (index_name g) vector 5 true))
    /\ (forall chunks,
           fst (App.search gen topic_field w) = App.mkResponse 200 (App.Results chunks) ->
           exists g,
             gen = Some g
             /\ outcome (search_relevant_speeches
                           g (App.get_default topic_field "") 5) w = inr chunks).
Proof.
  intros gen topic_field w. unfold App.search.
  destruct gen as [g |]; [| split; [intros ev [] | discriminate]].
  destruct (String.eqb (App.get_default topic_field "") "");
    [split; [intros ev [] | discriminate] |].
  pose proof (search_event_cases g (App.get_default topic_field "") 5 w) as Hcases.
  unfold calls, outcome in *.
  destruct (search_relevant_speeches g (App.get_default topic_field "") 5 w)
    as [[e | chunks] t] eqn:Hrun; simpl in *.
  - split; [| discriminate]. intros ev Hin. exists g. split; [reflexivity |].
    now apply Hcases.
  - split.
    + intros ev Hin. exists g. split; [reflexivity |]. now apply Hcases.
    + intros chunks' H. inversion H. subst. exists g.
      split; [reflexivity | now rewrite Hrun].
Qed.

Lemma web_search_calls_witness :
  exists g,
    Some Sample.self = Some g
    /\ outcome (search_relevant_speeches g "hope" 5) Sample.healthy
       = inr [Sample.chunk1; Sample.chunk2].
Proof.
  apply (proj2 (web_search_calls (Some Sample.self) (Some "hope") Sample.healthy)).
  vm_compute. reflexivity.
Defined.

(** ** Stripping *)

Section StripFront.

Variable patterns : list (list ascii).
Hypothesis patterns_nonempty : Forall (fun p => p <> []) patterns.

Lemma after_prefix_some p :
  forall x r, after_prefix p x = Some r -> x = (p ++ r)%list.
Proof.
  induction p as [| a p IH]; intros x r; simpl.
  - intros H. now injection H as ->.
  - destruct x as [| b x]; [discriminate |].
    destruct (Ascii.eqb_spec a b) as [-> | _]; [| discriminate].
    intros H. now rewrite (IH x r H).
Qed.

Lemma after_prefix_app p :
  forall r, after_prefix p (p ++ r)%list = Some r.
Proof.
  induction p as [| a p IH]; intros r; simpl; [reflexivity |].
  now rewrite Ascii.eqb_refl, IH.
Qed.

Lemma after_prefix_extend p :
  forall x r z,
    after_prefix p x = Some r -> after_prefix p (x ++ z)%list = Some (r ++ z)%list.
Proof.
  intros x r z H. apply after_prefix_some in H. subst x.
  now rewrite <- app_assoc, after_prefix_app.
Qed.

Lemma strip_one_some x r :
  strip_one patterns x = Some r ->
  exists p, In p patterns /\ x = (p ++ r)%list.
Proof.
  clear patterns_nonempty.
  induction patterns as [| p ps IH]; simpl; [discriminate |].
  destruct (after_prefix p x) as [r' |] eqn:Hp.
  - intros H. injection H as ->. exists p. split; [now left |].
    now apply after_prefix_some.
  - intros H. destruct (IH H) as [p' [Hin Hx]]. exists p'. split; [now right | exact Hx].
Qed.

Lemma strip_one_starts p r :
  In p patterns -> strip_one patterns (p ++ r)%list <> None.
Proof.
  clear patterns_nonempty.
  induction patterns as [| q ps IH]; simpl; [contradiction |].
  intros [-> | Hin].
  - now rewrite after_prefix_app.
  - destruct (after_prefix q (p ++ r)%list); [discriminate | now apply IH].
Qed.

Lemma strip_one_extend x z :
  strip_one patterns x <> None -> strip_one patterns (x ++ z)%list <> None.
Proof.
  destruct (strip_one patterns x) as [r |] eqn:Hx; [| congruence].
  intros _. destruct (strip_one_some x r Hx) as [p [Hin ->]].
  rewrite <- app_assoc. now apply strip_one_starts.
Qed.

Lemma strip_one_shorter x r :
  strip_one patterns x = Some r -> (List.length r < List.length x)%nat.
Proof.
  intros H. destruct (strip_one_some x r H) as [p [Hin ->]].
  rewrite Forall_forall in patterns_nonempty.
  specialize (patterns_nonempty p Hin).
  rewrite length_app. destruct p; [congruence | simpl; lia].
Qed.

Lemma strip_front_fuel_done fuel :
  forall x, (List.length x <= fuel)%nat ->
            strip_one patterns (strip_front_fuel patterns fuel x) = None.
Proof.
  induction fuel as [| fuel IH]; intros x Hlen; simpl.
  - destruct x; [| simpl in Hlen; lia].
    destruct (strip_one patterns []) as [r |] eqn:H; [| reflexivity].
    apply strip_one_shorter in H. simpl in H. lia.
  - destruct (strip_one patterns x) as [r |] eqn:H; [| exact H].
    apply IH. apply strip_one_shorter in H. lia.
Qed.

Lemma strip_front_fuel_suffix fuel :
  forall x, exists before, x = (before ++ strip_front_fuel patterns fuel x)%list.
Proof.
  clear patterns_nonempty.
  induction fuel as [| fuel IH]; intros x; simpl; [now exists [] |].
  destruct (strip_one patterns x) as [r |] eqn:H; [| now exists []].
  destruct (strip_one_some x r H) as [p [_ ->]].
  destruct (IH r) as [before Hr]. exists (p ++ before)%list.
  now rewrite <- app_assoc, <- Hr.
Qed.

Lemma strip_front_fuel_all fuel :
  forall x,
    x <> [] -> strip_front_fuel patterns fuel x = [] ->
    exists before p, In p patterns /\ x = (before ++ p)%list.
Proof.
  clear patterns_nonempty.
  induction fuel as [| fuel IH]; intros x Hx; simpl; [congruence |].
  destruct (strip_one patterns x) as [r |] eqn:H; [| congruence].
  intros Hr. destruct (strip_one_some x r H) as [p [Hin ->]].
  destruct r as [| c r].
  - exists [], p. split; [exact Hin | now rewrite app_nil_r].
  - destruct (IH (c :: r) ltac:(discriminate) Hr) as [before [p' [Hin' Heq]]].
    exists (p ++ before)%list, p'. split; [exact Hin' |].
    now rewrite Heq, app_assoc.
Qed.

End StripFront.

Lemma whitespace_nonempty : Forall (fun p => p <> []) whitespace.
Proof. unfold whitespace. simpl. repeat constructor; discriminate. Qed.

Lemma rev_whitespace_nonempty : Forall (fun p => p <> []) (map (@rev ascii) whitespace).
Proof. unfold whitespace. simpl. repeat constructor; discriminate. Qed.

(** The bytes of a stripped string do not end with a whitespace
    character. *)
Lemma strip_no_trailing_whitespace s :
  strip_one (map (@rev ascii) whitespace) (rev (list_ascii_of_string (strip s))) = None.
Proof.
  unfold strip, rstrip_bytes.
  rewrite list_ascii_of_string_of_list_ascii, rev_involutive.
  apply strip_front_fuel_done; [exact rev_whitespace_nonempty | lia].
Qed.

Lemma strip_front_empty patterns y :
  strip_front patterns y = [] -> y = [] \/ strip_one patterns y <> None.
Proof.
  unfold strip_front. intros H. destruct y as [| c y]; [now left |]. right.
  simpl in H. destruct (strip_one patterns (c :: y)); [discriminate | discriminate H].
Qed.

Lemma rstrip_empty x :
  rstrip_bytes x = [] -> x = [] \/ strip_one (map (@rev ascii) whitespace) (rev x) <> None.
Proof.
  unfold rstrip_bytes. intros H.
  apply (f_equal (@rev ascii)) in H. rewrite rev_involutive in H. simpl in H.
  destruct (strip_front_empty _ _ H) as [Hnil | Hws]; [left | now right].
  apply (f_equal (@rev ascii)) in Hnil. now rewrite rev_involutive in Hnil.
Qed.

Lemma lstrip_empty x :
  x <> [] -> lstrip_bytes x = [] ->
  strip_one (map (@rev ascii) whitespace) (rev x) <> None.
Proof.
  intros Hx H.
  destruct (strip_front_fuel_all whitespace _ x Hx H) as [before [p [Hin ->]]].
  rewrite rev_app_distr. apply strip_one_starts. now apply in_map.
Qed.

(** A string whose bytes do not end with whitespace and which is not
    empty does not strip to the empty string. *)
Lemma strip_nonempty_suffix (r : string) (front : list ascii) :
  r <> "" ->
  strip_one (map (@rev ascii) whitespace)
            (rev (front ++ list_ascii_of_string r)) = None ->
  strip r <> "".
Proof.
  intros Hr Hend Hstrip.
  unfold strip in Hstrip.
  apply (f_equal list_ascii_of_string) in Hstrip.
  rewrite list_ascii_of_string_of_list_ascii in Hstrip. simpl in Hstrip.
  set (R := list_ascii_of_string r) in *.
  assert (HR : R <> []).
  { subst R. destruct r; [congruence | discriminate]. }
  rewrite rev_app_distr in Hend.
  assert (Hstarts : strip_one (map (@rev ascii) whitespace) (rev R) <> None).
  { destruct (rstrip_empty _ Hstrip) as [Hempty | Hws].
    - now apply lstrip_empty.
    - destruct (strip_front_fuel_suffix whitespace (List.length R) R)
        as [before Hsuffix].
      fold (strip_front whitespace R) in Hsuffix. fold (lstrip_bytes R) in Hsuffix.
      rewrite Hsuffix, rev_app_distr. now apply strip_one_extend. }
  apply (strip_one_extend _ _ (rev front)) in Hstarts. congruence.
Qed.

(** ** The interactive loop *)

Lemma snd_after_events {A} t (r : A * list CliEvent) :
  snd (after_events t r) = (t ++ snd r)%list.
Proof. reflexivity. Qed.

Lemma fst_after_events {A} t (r : A * list CliEvent) :
  fst (after_events t r) = fst r.
Proof. reflexivity. Qed.

Section LoopInvariant.

Variable self : Generator.
Variable write_file : string -> string -> option string.
Variable w : World.

(** A property of the events, and a property of the state [length],
    [model] that the commands keep. *)
Variable Q : CliEvent -> Prop.
Variable I : string -> string -> Prop.

Hypothesis Q_input : forall prompt, Q (CliInput prompt).
Hypothesis I_length :
  forall length model word,
    I length model -> is_length_word word = true -> I word model.
Hypothesis I_gpt4 : forall length model, I length model -> I length "gpt-4".
Hypothesis I_gpt3 : forall length model, I length model -> I length "gpt-3.5-turbo".
Hypothesis Q_search :
  forall line ev,
    strip line <> "" ->
    String.prefix "search " (lower (strip line)) = true ->
    In ev (calls (search_relevant_speeches self (strip (drop_chars 7 (strip line))) 5) w) ->
    Q (CliRemote ev).
Hypothesis Q_generate :
  forall line length model ev,
    I length model ->
    strip line <> "" ->
    In ev (calls (generate self (strip line) length default_temperature model) w) ->
    Q (CliRemote ev).
Hypothesis Q_write :
  forall line length model result,
    I length model ->
    strip line <> "" ->
    Q (CliWrite (save_filename (strip line))
                (save_content (strip line) length model result)).

Lemma loop_events_bounded n :
  forall inputs length model,
    (List.length inputs <= n)%nat ->
    I length model ->
    Forall Q (snd (interactive_loop self write_file length model inputs w)).
Proof.
  induction n as [| n IH]; intros inputs length model Hlen HI.
  - destruct inputs; [| simpl in Hlen; lia].
    simpl. constructor; [apply Q_input | constructor].
  - destruct inputs as [| line rest].
    { simpl. constructor; [apply Q_input | constructor]. }
    simpl in Hlen. assert (Hrest : (List.length rest <= n)%nat) by lia.
    cbn [interactive_loop]. rewrite snd_after_events.
    apply Forall_app. split; [constructor; [apply Q_input | constructor] |].
    destruct (String.eqb (strip line) "") eqn:Hempty; [now apply IH |].
    apply String.eqb_neq in Hempty.
    destruct (String.eqb (lower (strip line)) "quit"); [constructor |].
    destruct (is_length_word (lower (strip line))) eqn:Hword.
    { apply IH; [exact Hrest | eapply I_length; eassumption]. }
    destruct (String.eqb (lower (strip line)) "gpt4").
    { apply IH; [exact Hrest | eapply I_gpt4; eassumption]. }
    destruct (String.eqb (lower (strip line)) "gpt3").
    { apply IH; [exact Hrest | eapply I_gpt3; eassumption]. }
    destruct (String.prefix "search " (lower (strip line))) eqn:Hsearch.
    { pose proof (Q_search line) as Hq. unfold calls in Hq.
      destruct (search_relevant_speeches self _ 5 w) as [[e | chunks] t];
        simpl in Hq.
      - simpl. apply Forall_forall. intros ev Hev.
        apply in_map_iff in Hev. destruct Hev as [ev' [<- Hev']]. auto.
      - rewrite snd_after_events. apply Forall_app. split; [| now apply IH].
        apply Forall_forall. intros ev Hev.
        apply in_map_iff in Hev. destruct Hev as [ev' [<- Hev']]. auto. }
    pose proof (Q_generate line length model) as Hq. unfold calls in Hq.
    destruct (generate self (strip line) length default_temperature model w)
      as [[e | [result |]] t]; simpl in Hq.
    + simpl. apply Forall_forall. intros ev Hev.
      apply in_map_iff in Hev. destruct Hev as [ev' [<- Hev']]. auto.
    + assert (Hremote : Forall Q (map CliRemote t)).
      { apply Forall_forall. intros ev Hev.
        apply in_map_iff in Hev. destruct Hev as [ev' [<- Hev']]. auto. }
      destruct (String.eqb result "").
      { rewrite snd_after_events. apply Forall_app. split; [exact Hremote | now apply IH]. }
      rewrite snd_after_events. apply Forall_app. split.
      { apply Forall_app. split; [exact Hremote |].
        constructor; [apply Q_input | constructor]. }
      destruct rest as [| answer rest']; [constructor |].
      simpl in Hrest.
      assert (Hrest' : (List.length rest' <= n)%nat) by lia.
      destruct (String.eqb (lower (strip answer)) "y"); [| now apply IH].
      rewrite snd_after_events. apply Forall_app. split.
      { constructor; [now apply Q_write | constructor]. }
      destruct (write_file _ _); [constructor | now apply IH].
    + rewrite snd_after_events. apply Forall_app. split; [| now apply IH].
      apply Forall_forall. intros ev Hev.
      apply in_map_iff in Hev. destruct Hev as [ev' [<- Hev']]. auto.
Qed.

Lemma loop_events inputs length model :
  I length model ->
  Forall Q (snd (interactive_loop self write_file length model inputs w)).
Proof. intros HI. now apply (loop_events_bounded (List.length inputs)). Qed.

End LoopInvariant.

Lemma max_tokens_of_cases length :
  max_tokens_of length = 500 \/ max_tokens_of length = 1000.
Proof. unfold max_tokens_of. destruct (String.eqb length "long"); auto. Qed.

(** X14: every chat call of an interactive session uses the model
    [gpt-4] or [gpt-3.5-turbo], the temperature 0.7, a token limit of 500
    or 1000, and a single message of role [user]: no input line can make
    the loop use another model or temperature. *)
Theorem interactive_chat_calls :
  forall self write_file inputs w model messages temperature max_tokens,
    In (CliRemote (EvChatCreate model messages temperature max_tokens))
       (snd (interactive_mode self write_file inputs w)) ->
    (model = "gpt-4" \/ model = "gpt-3.5-turbo")
    /\ temperature = default_temperature
    /\ (max_tokens = 500 \/ max_tokens = 1000)
    /\ exists prompt, messages = [mkMessage "user" prompt].
Proof.
  intros self write_file inputs w model messages temperature max_tokens Hin.
  pose (Q := fun ev =>
               match ev with
               | CliRemote (EvChatCreate m msgs t k) =>
                   (m = "gpt-4" \/ m = "gpt-3.5-turbo")
                   /\ t = default_temperature
                   /\ (k = 500 \/ k = 1000)
                   /\ exists prompt, msgs = [mkMessage "user" prompt]
               | _ => True
               end).
  pose (I := fun (_ m : string) => m = "gpt-4" \/ m = "gpt-3.5-turbo").
  assert (Hall : Forall Q (snd (interactive_mode self write_file inputs w))).
  { unfold interactive_mode. apply (loop_events self write_file w Q I).
    - intros; exact Logic.I.
    - intros length m word Hm _. exact Hm.
    - intros. now left.
    - intros. now right.
    - intros line ev _ _ Hev. apply search_event_cases in Hev.
      destruct Hev as [-> | [vector ->]]; exact Logic.I.
    - intros line length m ev Hm _ Hev. apply generate_event_cases in Hev.
      destruct Hev as [-> | [[vector ->] | [chunks ->]]]; try exact Logic.I.
      simpl. repeat split; auto using max_tokens_of_cases. eauto.
    - intros; exact Logic.I.
    - now left. }
  rewrite Forall_forall in Hall. exact (Hall _ Hin).
Qed.

Lemma interactive_chat_calls_witness :
  In (CliRemote (EvChatCreate "gpt-3.5-turbo"
                   [mkMessage "user"
                      (prompt_text "hope" [Sample.chunk1; Sample.chunk2] "long")]
                   default_temperature 1000))
     (snd (interactive_mode Sample.self (fun _ _ => None)
                            ["LONG"; " gpt3 "; "hope"; "n"; "quit"] Sample.healthy))
  /\ ("gpt-3.5-turbo" = "gpt-4" \/ "gpt-3.5-turbo" = "gpt-3.5-turbo").
Proof.
  assert (Hin : In (CliRemote (EvChatCreate "gpt-3.5-turbo"
                   [mkMessage "user"
                      (prompt_text "hope" [Sample.chunk1; Sample.chunk2] "long")]
                   default_temperature 1000))
     (snd (interactive_mode Sample.self (fun _ _ => None)
                            ["LONG"; " gpt3 "; "hope"; "n"; "quit"] Sample.healthy))).
  { vm_compute. auto 10. }
  split; [exact Hin |].
  exact (proj1 (interactive_chat_calls _ _ _ _ _ _ _ _ Hin)).
Defined.

Lemma lower_char_space c : lower_char c = " "%char -> c = " "%char.
Proof.
  destruct c as [[] [] [] [] [] [] [] []]; vm_compute; intros H;
    first [reflexivity | discriminate H].
Qed.

Lemma prefix_search u :
  String.prefix "search " (lower u) = true ->
  exists front r,
    List.length front = 6%nat
    /\ list_ascii_of_string u = (front ++ " "%char :: list_ascii_of_string r)%list
    /\ drop_chars 7 u = r.
Proof.
  intros H.
  destruct u as [| c1 [| c2 [| c3 [| c4 [| c5 [| c6 [| c7 r]]]]]]];
    cbn [lower String.prefix] in H;
    repeat match type of H with
           | (if ?d then _ else _) = true => destruct d as [? | ?]; try discriminate H
           end;
    try discriminate H.
  exists [c1; c2; c3; c4; c5; c6], r.
  split; [reflexivity |]. split; [| reflexivity].
  assert (Hc7 : c7 = " "%char).
  { apply lower_char_space. symmetry. assumption. }
  subst c7. reflexivity.
Qed.

(** The topic of a [search] command is never empty. *)
Lemma search_topic_nonempty line :
  String.prefix "search " (lower (strip line)) = true ->
  strip (drop_chars 7 (strip line)) <> "".
Proof.
  intros Hprefix.
  destruct (prefix_search _ Hprefix) as [front [r [Hfront [Hbytes Hdrop]]]].
  pose proof (strip_no_trailing_whitespace line) as Hend.
  rewrite Hbytes in Hend. rewrite Hdrop.
  assert (Hspace : In (rev [" "%char]) (map (@rev ascii) whitespace)).
  { apply in_map. unfold whitespace. simpl. auto 12. }
  destruct r as [| c r].
  - exfalso. simpl list_ascii_of_string in Hend.
    rewrite rev_app_distr in Hend.
    exact (strip_one_starts _ _ (rev front) Hspace Hend).
  - apply (strip_nonempty_suffix (String c r) (front ++ [" "%char])%list);
      [discriminate |].
    rewrite <- app_assoc. exact Hend.
Qed.

(** X15: every embedding call of an interactive session carries a
    non-empty text, and every index query goes to the instance's index,
    with metadata, for 3 matches (a generation) or 5 (a [search]
    command): the loop never sends an empty topic to the services. *)
Theorem interactive_retrieval_calls :
  forall self write_file inputs w,
    (forall model input,
        In (CliRemote (EvEmbeddingsCreate model input))
           (snd (interactive_mode self write_file inputs w)) ->
        model = embedding_model /\ input <> "")
    /\ (forall index vector top_k include_metadata,
           In (CliRemote (EvIndexQuery index vector top_k include_metadata))
              (snd (interactive_mode self write_file inputs w)) ->
           index = index_name self
           /\ (top_k = 3 \/ top_k = 5)
           /\ include_metadata = true).
Proof.
  intros self write_file inputs w.
  pose (Q := fun ev =>
               match ev with
               | CliRemote (EvEmbeddingsCreate m input) =>
                   m = embedding_model /\ input <> ""
               | CliRemote (EvIndexQuery index _ k b) =>
                   index = index_name self /\ (k = 3 \/ k = 5) /\ b = true
               | _ => True
               end).
  assert (Hall : Forall Q (snd (interactive_mode self write_file inputs w))).
  { unfold interactive_mode.
    apply (loop_events self write_file w Q (fun _ _ => True)).
    - intros; exact Logic.I.
    - intros; exact Logic.I.
    - intros; exact Logic.I.
    - intros; exact Logic.I.
    - intros line ev _ Hprefix Hev. apply search_event_cases in Hev.
      destruct Hev as [-> | [vector ->]]; simpl; auto.
      split; [reflexivity | now apply search_topic_nonempty].
    - intros line length m ev _ Hne Hev. apply generate_event_cases in Hev.
      destruct Hev as [-> | [[vector ->] | [chunks ->]]]; simpl; auto.
    - intros; exact Logic.I.
    - exact Logic.I. }
  rewrite Forall_forall in Hall.
  split.
  - intros model input Hin. exact (Hall _ Hin).
  - intros index vector top_k include_metadata Hin. exact (Hall _ Hin).
Qed.

Lemma interactive_retrieval_calls_witness :
  In (CliRemote (EvEmbeddingsCreate embedding_model "change"))
     (snd (interactive_mode Sample.self (fun _ _ => None)
                            ["  "; "Search   change  "; "quit"] Sample.healthy))
  /\ "change" <> "".
Proof.
  assert (Hin : In (CliRemote (EvEmbeddingsCreate embedding_model "change"))
     (snd (interactive_mode Sample.self (fun _ _ => None)
                            ["  "; "Search   change  "; "quit"] Sample.healthy))).
  { vm_compute. auto 10. }
  split; [exact Hin |].
  exact (proj2 (proj1 (interactive_retrieval_calls _ _ _ _) _ _ Hin)).
Defined.

Lemma lower_empty u : lower u = "" -> u = "".
Proof. destruct u; [reflexivity | discriminate]. Qed.

Lemma is_length_word_cases s :
  is_length_word s = true -> s = "short" \/ s = "medium" \/ s = "long".
Proof.
  unfold is_length_word. intros H.
  apply orb_true_iff in H. destruct H as [H | H].
  - apply orb_true_iff in H. destruct H as [H | H]; apply String.eqb_eq in H; auto.
  - apply String.eqb_eq in H. auto.
Qed.

(** X16: the commands of the interactive loop act on the stripped line
    whatever its case, and make no remote call: a blank line changes
    nothing, [quit] ends the loop at once without reading further,
    [short], [medium] and [long] set the length, [gpt4] and [gpt3] set the
    model to [gpt-4] and [gpt-3.5-turbo], for the rest of the session. *)
Theorem interactive_commands :
  forall self write_file length model line rest w,
    let loop := interactive_loop self write_file in
    let asked := [CliInput topic_prompt] in
    (strip line = "" ->
     loop length model (line :: rest) w
     = after_events asked (loop length model rest w))
    /\ (lower (strip line) = "quit" ->
        loop length model (line :: rest) w = (inr tt, asked))
    /\ (is_length_word (lower (strip line)) = true ->
        loop length model (line :: rest) w
        = after_events asked (loop (lower (strip line)) model rest w))
    /\ (lower (strip line) = "gpt4" ->
        loop length model (line :: rest) w
        = after_events asked (loop length "gpt-4" rest w))
    /\ (lower (strip line) = "gpt3" ->
        loop length model (line :: rest) w
        = after_events asked (loop length "gpt-3.5-turbo" rest w)).
Proof.
  intros self write_file length model line rest w loop asked.
  subst loop asked. cbn [interactive_loop].
  repeat split.
  - intros ->. reflexivity.
  - intros Hq.
    destruct (String.eqb_spec (strip line) "") as [He | _].
    { rewrite He in Hq. discriminate Hq. }
    rewrite Hq. reflexivity.
  - intros Hw.
    destruct (String.eqb_spec (strip line) "") as [He | _].
    { rewrite He in Hw. discriminate Hw. }
    rewrite Hw.
    destruct (is_length_word_cases _ Hw) as [-> | [-> | ->]]; reflexivity.
  - intros Hq.
    destruct (String.eqb_spec (strip line) "") as [He | _].
    { rewrite He in Hq. discriminate Hq. }
    rewrite Hq. reflexivity.
  - intros Hq.
    destruct (String.eqb_spec (strip line) "") as [He | _].
    { rewrite He in Hq. discriminate Hq. }
    rewrite Hq. reflexivity.
Qed.

Lemma interactive_commands_witness :
  interactive_loop Sample.self (fun _ _ => None) "medium" "gpt-4"
                   ["  LoNg "; " GPT3"; "Quit"; "hope"] Sample.healthy
  = (inr tt, [CliInput topic_prompt; CliInput topic_prompt; CliInput topic_prompt]).
Proof.
  pose proof (interactive_commands Sample.self (fun _ _ => None)) as H.
  rewrite (proj1 (proj2 (proj2 (H "medium" "gpt-4" "  LoNg "
                                  [" GPT3"; "Quit"; "hope"] Sample.healthy)))
             eq_refl).
  rewrite (proj2 (proj2 (proj2 (proj2 (H (lower (strip "  LoNg ")) "gpt-4" " GPT3"
                                         ["Quit"; "hope"] Sample.healthy))))
             eq_refl).
  rewrite (proj1 (proj2 (H (lower (strip "  LoNg ")) "gpt-3.5-turbo" "Quit"
                           ["hope"] Sample.healthy))
             eq_refl).
  reflexivity.
Defined.

Lemma loop_returns_bounded self write_file w n :
  forall inputs length model,
    (List.length inputs <= n)%nat ->
    fst (interactive_loop self write_file length model inputs w) = inr tt ->
    exists line, In line inputs /\ lower (strip line) = "quit".
Proof.
  induction n as [| n IH]; intros inputs length model Hlen.
  - destruct inputs; [discriminate | simpl in Hlen; lia].
  - destruct inputs as [| line rest]; [discriminate |].
    simpl in Hlen. assert (Hrest : (List.length rest <= n)%nat) by lia.
    assert (Hnext : forall length' model',
               fst (interactive_loop self write_file length' model' rest w) = inr tt ->
               exists l, In l (line :: rest) /\ lower (strip l) = "quit").
    { intros length' model' H. destruct (IH rest length' model' Hrest H) as [l [Hl Hq]].
      exists l. split; [now right | exact Hq]. }
    cbn [interactive_loop]. rewrite fst_after_events.
    destruct (String.eqb (strip line) ""); [apply Hnext |].
    destruct (String.eqb_spec (lower (strip line)) "quit") as [Hq | _].
    { intros _. exists line. split; [now left | exact Hq]. }
    destruct (is_length_word (lower (strip line))); [apply Hnext |].
    destruct (String.eqb (lower (strip line)) "gpt4"); [apply Hnext |].
    destruct (String.eqb (lower (strip line)) "gpt3"); [apply Hnext |].
    destruct (String.prefix "search " (lower (strip line))).
    { destruct (search_relevant_speeches self _ 5 w) as [[e | chunks] t];
        [discriminate | rewrite fst_after_events; apply Hnext]. }
    destruct (generate self (strip line) length default_temperature model w)
      as [[e | [result |]] t];
      [discriminate | | rewrite fst_after_events; apply Hnext].
    destruct (String.eqb result ""); [rewrite fst_after_events; apply Hnext |].
    rewrite fst_after_events.
    destruct rest as [| answer rest']; [discriminate |].
    simpl in Hrest. assert (Hrest' : (List.length rest' <= n)%nat) by lia.
    assert (Hnext' :
              fst (interactive_loop self write_file length model rest' w) = inr tt ->
              exists l, In l (line :: answer :: rest') /\ lower (strip l) = "quit").
    { intros H. destruct (IH rest' length model Hrest' H) as [l [Hl Hq]].
      exists l. split; [right; now right | exact Hq]. }
    destruct (String.eqb (lower (strip answer)) "y"); [| exact Hnext'].
    rewrite fst_after_events.
    destruct (write_file _ _); [discriminate | exact Hnext'].
Qed.

(** X17: an interactive session returns normally only through [quit]:
    when [interactive_mode] returns, one of the lines it was given is a
    [quit] command.  On input without one it ends by an exception
    ([EOFError] when the input runs out). *)
Theorem interactive_mode_returns_on_quit :
  forall self write_file inputs w,
    (fst (interactive_mode self write_file inputs w) = inr tt ->
     exists line, In line inputs /\ lower (strip line) = "quit")
    /\ ((forall line, In line inputs -> lower (strip line) <> "quit") ->
        exists e, fst (interactive_mode self write_file inputs w) = inl e).
Proof.
  intros self write_file inputs w.
  assert (Hret : fst (interactive_mode self write_file inputs w) = inr tt ->
                 exists line, In line inputs /\ lower (strip line) = "quit").
  { apply (loop_returns_bounded self write_file w (List.length inputs)). lia. }
  split; [exact Hret |].
  intros Hnone.
  destruct (fst (interactive_mode self write_file inputs w)) as [e | []];
    [now exists e |].
  destruct (Hret eq_refl) as [line [Hin Hq]]. now apply Hnone in Hq.
Qed.

Lemma interactive_mode_returns_on_quit_witness :
  exists e,
    fst (interactive_mode Sample.self (fun _ _ => None) ["short"; "  "; "hope"]
                          Sample.healthy) = inl e.
Proof.
  apply (proj2 (interactive_mode_returns_on_quit
                  Sample.self (fun _ _ => None) ["short"; "  "; "hope"]
                  Sample.healthy)).
  intros line [<- | [<- | [<- | []]]]; vm_compute; discriminate.
Defined.

(** ** Saved files *)

Lemma contains_space_replace s : contains_space (replace_spaces s) = false.
Proof.
  induction s as [| c s IH]; simpl; [reflexivity |].
  rewrite IH. destruct (Ascii.eqb c " ") eqn:Hc; [reflexivity |].
  now rewrite Hc.
Qed.

Lemma contains_space_take n :
  forall s, contains_space s = false -> contains_space (take_chars n s) = false.
Proof.
  induction n as [| n IH]; intros s.
  - induction s as [| c s IHs]; simpl; [reflexivity |].
    intros H. apply orb_false_iff in H. destruct H as [Hc Hs].
    destruct (is_continuation c); [| reflexivity].
    simpl. now rewrite Hc, IHs.
  - induction s as [| c s IHs]; simpl; [reflexivity |].
    intros H. apply orb_false_iff in H. destruct H as [Hc Hs].
    destruct (is_continuation c); simpl; rewrite Hc; simpl; auto.
Qed.

Lemma char_count_take n : forall s, (char_count (take_chars n s) <= n)%nat.
Proof.
  induction n as [| n IH]; intros s.
  - induction s as [| c s IHs]; simpl; [lia |].
    destruct (is_continuation c) eqn:Hc; simpl; [now rewrite Hc | lia].
  - induction s as [| c s IHs]; simpl; [lia |].
    destruct (is_continuation c) eqn:Hc; simpl; rewrite Hc; [exact IHs |].
    specialize (IH s). lia.
Qed.

(** X18: every file an interactive session writes is named
    [generated_<slug>.txt], where the slug is the start of the topic, at
    most 30 characters, with no space in it; its content starts with the
    line [Topic: ]. *)
Theorem interactive_saved_files :
  forall self write_file inputs w filename text,
    In (CliWrite filename text) (snd (interactive_mode self write_file inputs w)) ->
    exists slug rest,
      filename = "generated_" ++ slug ++ ".txt"
      /\ contains_space slug = false
      /\ (char_count slug <= 30)%nat
      /\ text = "Topic: " ++ rest.
Proof.
  intros self write_file inputs w filename text Hin.
  pose (Q := fun ev =>
               match ev with
               | CliWrite f c =>
                   exists slug rest,
                     f = "generated_" ++ slug ++ ".txt"
                     /\ contains_space slug = false
                     /\ (char_count slug <= 30)%nat
                     /\ c = "Topic: " ++ rest
               | _ => True
               end).
  assert (Hall : Forall Q (snd (interactive_mode self write_file inputs w))).
  { unfold interactive_mode.
    apply (loop_events self write_file w Q (fun _ _ => True)).
    - intros; exact Logic.I.
    - intros; exact Logic.I.
    - intros; exact Logic.I.
    - intros; exact Logic.I.
    - intros; exact Logic.I.
    - intros; exact Logic.I.
    - intros line length model result _ _. simpl.
      exists (take_chars 30 (replace_spaces (strip line))). eexists.
      split; [reflexivity |].
      split; [apply contains_space_take, contains_space_replace |].
      split; [apply char_count_take |].
      unfold save_content. reflexivity.
    - exact Logic.I. }
  rewrite Forall_forall in Hall. exact (Hall _ Hin).
Qed.

Lemma interactive_saved_files_witness :
  exists slug rest,
    "generated_health_care_reform_in_the_Unit.txt" = "generated_" ++ slug ++ ".txt"
    /\ contains_space slug = false
    /\ (char_count slug <= 30)%nat
    /\ save_content "health care reform in the United States" "medium" "gpt-4"
                    "My fellow Americans."
       = "Topic: " ++ rest.
Proof.
  apply (interactive_saved_files
           Sample.self (fun _ _ => None)
           [" health care reform in the United States "; "Y"; "quit"]
           Sample.healthy).
  vm_compute. auto 10.
Defined.

(** ** The script *)

(** X19: run as a script, the program exits with status 1, before any
    remote call and before reading input, when one of the two environment
    variables is unset or empty.  With both set it always ends with status
    0: a failed construction is reported and not retried, no input is
    read, and an exception that ends the session does not change the
    status. *)
Theorem main_exit_status :
  forall write_file inputs w,
    (truthy (os_environ_get w "OPENAI_API_KEY") = None
     \/ truthy (os_environ_get w "PINECONE_API_KEY") = None ->
     main write_file inputs w = (1, []))
    /\ (forall ok pk,
           truthy (os_environ_get w "OPENAI_API_KEY") = Some ok ->
           truthy (os_environ_get w "PINECONE_API_KEY") = Some pk ->
           fst (main write_file inputs w) = 0
           /\ (forall e,
                  outcome (init None None "obama-speeches") w = inl e ->
                  snd (main write_file inputs w)
                  = map CliRemote (calls (init None None "obama-speeches") w))
           /\ (forall self,
                  outcome (init None None "obama-speeches") w = inr self ->
                  snd (main write_file inputs w)
                  = (map CliRemote (calls (init None None "obama-speeches") w)
                     ++ snd (interactive_mode self write_file inputs w))%list)).
Proof.
  intros write_file inputs w. unfold main, outcome, calls. split.
  - intros [H | H].
    + now rewrite H.
    + rewrite H. now destruct (truthy (os_environ_get w "OPENAI_API_KEY")).
  - intros ok pk Hok Hpk. rewrite Hok, Hpk.
    destruct (init None None "obama-speeches" w) as [[e | g] t]; simpl.
    + split; [reflexivity |]. split; [reflexivity | discriminate].
    + split; [reflexivity |]. split; [discriminate |].
      intros self H. inversion H. reflexivity.
Qed.

Lemma main_exit_status_witness :
  main (fun _ _ => None) ["hope"] Sample.embedding_down = (1, [])
  /\ fst (main (fun _ _ => None) ["hope"] Sample.index_down) = 0
  /\ snd (main (fun _ _ => None) ["hope"] Sample.index_down)
     = map CliRemote (calls (init None None "obama-speeches") Sample.index_down).
Proof.
  split; [| split].
  - apply (proj1 (main_exit_status (fun _ _ => None) ["hope"] Sample.embedding_down)).
    left. reflexivity.
  - apply (proj2 (main_exit_status (fun _ _ => None) ["hope"] Sample.index_down)
                 "sk-test" "pc-test" eq_refl eq_refl).
  - apply (proj1 (proj2 (proj2 (main_exit_status (fun _ _ => None) ["hope"]
                                                 Sample.index_down)
                               "sk-test" "pc-test" eq_refl eq_refl))
                 (ServiceError "index unreachable")).
    reflexivity.
Defined.
